(** * Project-context lifecycle of the chat control bar

    A shallow embedding of [reloadCurrentProject] and
    [forceRebuildCurrentProjectContext] from
    [src/components/chat-components/ChatControls.tsx].

    The two functions are asynchronous workflows over collaborators that
    live in other modules (the project register of [@/aiParams], the
    [ProjectContextCache] singleton, the plugin registry of the host
    application, [Notice], [logError], [isRateLimitError],
    [Docs4LLMParser] and [ConfirmModal]).  They are embedded in a state
    and exception monad [Js] over a [World] that holds the shared state
    and a chronological log of every call the two functions make. *)

From Stdlib Require Import String Ascii List ZArith Bool Lia.
From ExtLib Require Import Structures.Monad.
Import ListNotations.
Import MonadNotation.
Local Open Scope string_scope.
Local Open Scope monad_scope.

Set Implicit Arguments.

(* ================================================================== *)
(** ** Data *)
(* ================================================================== *)

(** The two fields of a project configuration that the control bar reads. *)
Record ProjectConfig : Type := mkProject {
  id : string;
  name : string
}.

(** A value raised by [throw] or carried by a rejected promise: an
    [Error] object with its message. *)
Inductive Thrown : Type :=
| NewError (message : string).

(** How a statement or an awaited promise ends. *)
Inductive Completion (A : Type) : Type :=
| Normal (a : A)
| Abrupt (e : Thrown).

Arguments Normal {A} a.
Arguments Abrupt {A} e.

(** The arrow function handed to [ConfirmModal], kept as data: it closes
    over the [currentProject] read when the modal was built. *)
Inductive Closure : Type :=
| ForceRebuildOnConfirm (currentProject : ProjectConfig).

(** [new ConfirmModal(app, onConfirm, content, title)]. *)
Record ConfirmModal : Type := mkConfirmModal {
  onConfirm : Closure;
  content : string;
  title : string
}.

(** Every call the two workflows make on a collaborator, in the order in
    which it happens. *)
Inductive Event : Type :=
| EvSetProjectLoading (loading : bool)
| EvNotice (message : string) (duration : option Z)
| EvInvalidateMarkdownContext (project : ProjectConfig) (forceReloadAllRemotes : bool)
| EvClearForProject (project : ProjectConfig)
| EvResetRateLimitNoticeTimer
| EvGetProjectContext (projectId : string)
| EvLogError (message : string) (error : Thrown)
| EvModalNew (modal : ConfirmModal)
| EvModalOpen (modal : ConfirmModal).

(** An asynchronous collaborator call, awaited: it leaves the cache in
    some state and either fulfils or rejects.  The collaborators act on
    the cache only; the busy flag, the notices and the error log seen
    here are those of the two workflows.  Within one workflow the stages
    run one after the other, each resuming when the awaited call has
    settled. *)
Definition Awaited (Cache : Type) : Type := Cache -> Completion unit * Cache.

(** [ProjectContextCache.getInstance()]: the two operations used here. *)
Record ProjectContextCache (Cache : Type) : Type := mkContextCache {
  invalidateMarkdownContext : ProjectConfig -> bool -> Awaited Cache;
  clearForProject : ProjectConfig -> Awaited Cache
}.

(** [plugin.projectManager]. *)
Record ProjectManager (Cache : Type) : Type := mkProjectManager {
  getProjectContext : string -> Awaited Cache
}.

(** The object returned by [app.plugins.getPlugin]; [projectManager] may
    be missing. *)
Record Plugin (Cache : Type) : Type := mkPlugin {
  projectManager : option (ProjectManager Cache)
}.

(** The host application: [app.plugins.getPlugin(id)] yields a plugin or
    nothing. *)
Record App (Cache : Type) : Type := mkApp {
  getPlugin : string -> option (Plugin Cache)
}.

(** Everything the module imports and does not own. *)
Record Collaborators (Cache : Type) : Type := mkCollaborators {
  contextCache : ProjectContextCache Cache;
  app : App Cache;
  isRateLimitError : Thrown -> bool
}.

(** The shared state: the project register and busy flag of [@/aiParams],
    the project cache, the rate-limit notice timer of [Docs4LLMParser],
    the stack of open modals (topmost first) and the call log. *)
Record World (Cache : Type) : Type := mkWorld {
  currentProject : option ProjectConfig;
  projectLoading : bool;
  cache : Cache;
  lastRateLimitNoticeTime : Z;
  openModals : list ConfirmModal;
  log : list Event
}.

(* ================================================================== *)
(** ** The state and exception monad *)
(* ================================================================== *)

(** A computation runs from a world to a completion and a world; state
    changes made before a [throw] stay. *)
Definition Js (Cache : Type) (A : Type) : Type :=
  World Cache -> Completion A * World Cache.

Definition Js_ret {Cache A : Type} (a : A) : Js Cache A :=
  fun w => (Normal a, w).

Definition Js_bind {Cache A B : Type} (c : Js Cache A) (k : A -> Js Cache B)
  : Js Cache B :=
  fun w =>
    match c w with
    | (Normal a, w1) => k a w1
    | (Abrupt e, w1) => (Abrupt e, w1)
    end.

#[global] Instance Monad_Js (Cache : Type) : Monad (Js Cache) := {|
  ret := @Js_ret Cache;
  bind := @Js_bind Cache
|}.

(** [throw e]. *)
Definition throw {Cache A : Type} (e : Thrown) : Js Cache A :=
  fun w => (Abrupt e, w).

(** [try { body } catch (error) { handler } finally { fin }]: the handler
    runs when the body throws, [fin] runs on every path, and a throw of
    [fin] replaces the completion reached before it. *)
Definition try_catch_finally {Cache A : Type}
    (body : Js Cache A) (handler : Thrown -> Js Cache A) (fin : Js Cache unit)
  : Js Cache A :=
  fun w =>
    let (r, w1) :=
      match body w with
      | (Normal a, w1) => (Normal a, w1)
      | (Abrupt e, w1) => handler e w1
      end in
    match fin w1 with
    | (Normal _, w2) => (r, w2)
    | (Abrupt e, w2) => (Abrupt e, w2)
    end.

Section Primitives.
Context {Cache : Type}.

Definition emit (ev : Event) (w : World Cache) : World Cache :=
  mkWorld (currentProject w) (projectLoading w) (cache w)
          (lastRateLimitNoticeTime w) (openModals w) (log w ++ [ev]).

(** Modelled from the spec: [getCurrentProject] of [@/aiParams] is not
    among the sources; it reads the register of the active project. *)
Definition getCurrentProject : Js Cache (option ProjectConfig) :=
  fun w => (Normal (currentProject w), w).

(** Modelled from the spec: [setProjectLoading] of [@/aiParams] is not
    among the sources; it writes the process-wide busy flag. *)
Definition setProjectLoading (loading : bool) : Js Cache unit :=
  fun w =>
    (Normal tt,
     emit (EvSetProjectLoading loading)
          (mkWorld (currentProject w) loading (cache w)
                   (lastRateLimitNoticeTime w) (openModals w) (log w))).

(** [new Notice(message, duration?)]. *)
Definition newNotice (message : string) (duration : option Z) : Js Cache unit :=
  fun w => (Normal tt, emit (EvNotice message duration) w).

(** Modelled from the spec: [logError] of [@/logger] is not among the
    sources; it records the message and the error. *)
Definition logError (message : string) (error : Thrown) : Js Cache unit :=
  fun w => (Normal tt, emit (EvLogError message error) w).

(** Modelled from the spec: [Docs4LLMParser.resetRateLimitNoticeTimer] of
    [@/tools/FileParserManager] is not among the sources; it resets the
    time of the last rate-limit notice. *)
Definition resetRateLimitNoticeTimer : Js Cache unit :=
  fun w =>
    (Normal tt,
     emit EvResetRateLimitNoticeTimer
          (mkWorld (currentProject w) (projectLoading w) (cache w)
                   0%Z (openModals w) (log w))).

(** [await op]: the call is logged when it is made, the cache is left
    as the collaborator leaves it, and a rejection is thrown. *)
Definition await (ev : Event) (op : Awaited Cache) : Js Cache unit :=
  fun w =>
    let (r, c) := op (cache w) in
    (r, mkWorld (currentProject w) (projectLoading w) c
                (lastRateLimitNoticeTime w) (openModals w) (log w ++ [ev])).

(** [new ConfirmModal(app, onConfirm, content, title)]. *)
Definition newConfirmModal (onConfirm : Closure) (content title : string)
  : Js Cache ConfirmModal :=
  fun w =>
    let modal := mkConfirmModal onConfirm content title in
    (Normal modal, emit (EvModalNew modal) w).

(** [modal.open()]. *)
Definition openModal (modal : ConfirmModal) : Js Cache unit :=
  fun w =>
    (Normal tt,
     emit (EvModalOpen modal)
          (mkWorld (currentProject w) (projectLoading w) (cache w)
                   (lastRateLimitNoticeTime w) (modal :: openModals w) (log w))).

End Primitives.

(* ================================================================== *)
(** ** Messages *)
(* ================================================================== *)

(** The double-quote character of the template literals. *)
Definition dquote : string := String "034"%char EmptyString.

Definition quoted (s : string) : string := dquote ++ s ++ dquote.

Definition noProjectToReloadMsg : string :=
  "No project is currently selected to reload.".

Definition reloadedMsg (p : ProjectConfig) : string :=
  "Project context for " ++ quoted (name p) ++ " reloaded successfully.".

Definition reloadErrorLogMsg : string := "Error reloading project context:".

Definition reloadFailedMsg : string :=
  "Failed to reload project context. Check console for details.".

Definition reloadUnavailableMsg : string :=
  "Copilot plugin or ProjectManager not available.".

Definition noProjectToRebuildMsg : string :=
  "No project is currently selected to rebuild.".

Definition rebuildingMsg (p : ProjectConfig) : string :=
  "Force rebuilding context for project: " ++ name p
  ++ "... This will take some time and re-fetch all data.".

Definition cacheClearedMsg (p : ProjectConfig) : string :=
  "Cache for project " ++ quoted (name p) ++ " has been cleared.".

Definition rebuiltMsg (p : ProjectConfig) : string :=
  "Project context for " ++ quoted (name p)
  ++ " rebuilt successfully from scratch.".

Definition rebuildErrorLogMsg : string :=
  "Error force rebuilding project context:".

Definition rebuildFailedMsg : string :=
  "Failed to force rebuild project context. Check console for details.".

Definition rebuildUnavailableMsg : string :=
  "Copilot plugin or ProjectManager not available for rebuild.".

Definition confirmMsg (p : ProjectConfig) : string :=
  "DANGER: This will permanently delete all cached data (markdown, web URLs, YouTube transcripts, and processed file content) for the project "
  ++ quoted (name p)
  ++ " from both memory and disk. The context will then be rebuilt from scratch, re-fetching all remote data and re-processing all local files. This cannot be undone. Are you absolutely sure?".

Definition confirmTitle : string := "Force Rebuild Project Context".

(** Messages stay folded while a run is simplified. *)
Arguments reloadedMsg : simpl never.
Arguments rebuildingMsg : simpl never.
Arguments cacheClearedMsg : simpl never.
Arguments rebuiltMsg : simpl never.
Arguments confirmMsg : simpl never.
Arguments noProjectToReloadMsg : simpl never.
Arguments reloadErrorLogMsg : simpl never.
Arguments reloadFailedMsg : simpl never.
Arguments reloadUnavailableMsg : simpl never.
Arguments noProjectToRebuildMsg : simpl never.
Arguments rebuildErrorLogMsg : simpl never.
Arguments rebuildFailedMsg : simpl never.
Arguments rebuildUnavailableMsg : simpl never.
Arguments confirmTitle : simpl never.

(* ================================================================== *)
(** ** The two workflows *)
(* ================================================================== *)

Section Lifecycle.
Context {Cache : Type}.
Variable env : Collaborators Cache.

(** [plugin && plugin.projectManager]. *)
Definition pluginProjectManager (plugin : option (Plugin Cache))
  : option (ProjectManager Cache) :=
  match plugin with
  | Some pl => projectManager pl
  | None => None
  end.

(** The [try] block of [reloadCurrentProject]. *)
Definition reloadTry (currentProject : ProjectConfig) : Js Cache unit :=
  setProjectLoading true ;;
  await (EvInvalidateMarkdownContext currentProject true)
        (invalidateMarkdownContext (contextCache env) currentProject true) ;;
  let plugin := getPlugin (app env) "copilot" in
  match pluginProjectManager plugin with
  | Some pm =>
      await (EvGetProjectContext (id currentProject))
            (getProjectContext pm (id currentProject)) ;;
      newNotice (reloadedMsg currentProject) None
  | None => throw (NewError reloadUnavailableMsg)
  end.

(** The [catch] block of [reloadCurrentProject]. *)
Definition reloadCatch (error : Thrown) : Js Cache unit :=
  logError reloadErrorLogMsg error ;;
  if negb (isRateLimitError env error)
  then newNotice reloadFailedMsg None
  else ret tt.

(** The [try]/[catch]/[finally] statement of [reloadCurrentProject],
    for the project read from the register. *)
Definition reloadProject (currentProject : ProjectConfig) : Js Cache unit :=
  try_catch_finally
    (reloadTry currentProject)
    reloadCatch
    (setProjectLoading false).

Definition reloadCurrentProject : Js Cache unit :=
  currentProject <- getCurrentProject ;;
  match currentProject with
  | None => newNotice noProjectToReloadMsg None
  | Some currentProject => reloadProject currentProject
  end.

(** The [try] block of the confirmed callback of
    [forceRebuildCurrentProjectContext]. *)
Definition forceRebuildTry (currentProject : ProjectConfig) : Js Cache unit :=
  setProjectLoading true ;;
  newNotice (rebuildingMsg currentProject) (Some 10000%Z) ;;
  resetRateLimitNoticeTimer ;;
  await (EvClearForProject currentProject)
        (clearForProject (contextCache env) currentProject) ;;
  newNotice (cacheClearedMsg currentProject) None ;;
  let plugin := getPlugin (app env) "copilot" in
  match pluginProjectManager plugin with
  | Some pm =>
      await (EvGetProjectContext (id currentProject))
            (getProjectContext pm (id currentProject)) ;;
      newNotice (rebuiltMsg currentProject) None
  | None => throw (NewError rebuildUnavailableMsg)
  end.

(** The [catch] block of the confirmed callback. *)
Definition forceRebuildCatch (error : Thrown) : Js Cache unit :=
  logError rebuildErrorLogMsg error ;;
  if negb (isRateLimitError env error)
  then newNotice rebuildFailedMsg None
  else ret tt.

(** The arrow function passed to [ConfirmModal]. *)
Definition forceRebuildConfirmed (currentProject : ProjectConfig) : Js Cache unit :=
  try_catch_finally
    (forceRebuildTry currentProject)
    forceRebuildCatch
    (setProjectLoading false).

Definition forceRebuildCurrentProjectContext : Js Cache unit :=
  currentProject <- getCurrentProject ;;
  match currentProject with
  | None => newNotice noProjectToRebuildMsg None
  | Some currentProject =>
      modal <- newConfirmModal (ForceRebuildOnConfirm currentProject)
                               (confirmMsg currentProject) confirmTitle ;;
      openModal modal
  end.

(** Calling a stored closure. *)
Definition callClosure (k : Closure) : Js Cache unit :=
  match k with
  | ForceRebuildOnConfirm currentProject => forceRebuildConfirmed currentProject
  end.

(** Modelled from the spec: [ConfirmModal] of
    [@/components/modals/ConfirmModal] is not among the sources.  The
    confirmation prompt "presents a modal with a message and
    title; invokes a supplied action only if the user confirms".  The
    user answers the topmost open modal: the modal closes, and the
    supplied action runs when, and only when, the answer is a
    confirmation.  With no modal open there is nothing to answer. *)
Definition answerModal (confirmed : bool) : Js Cache unit :=
  fun w =>
    match openModals w with
    | [] => (Normal tt, w)
    | modal :: rest =>
        let w1 := mkWorld (currentProject w) (projectLoading w) (cache w)
                          (lastRateLimitNoticeTime w) rest (log w) in
        if confirmed then callClosure (onConfirm modal) w1
        else (Normal tt, w1)
    end.

End Lifecycle.

(* ================================================================== *)
(** ** The two operations side by side *)
(* ================================================================== *)

(** Reload is the [try] statement of [reloadCurrentProject]; ForceRebuild
    is the callback that [forceRebuildCurrentProjectContext] hands to the
    confirmation prompt. *)
Inductive Operation : Type :=
| Reload
| ForceRebuild.

Section Operations.
Context {Cache : Type}.
Variable env : Collaborators Cache.

Definition operation (op : Operation) (p : ProjectConfig) : Js Cache unit :=
  match op with
  | Reload => reloadProject env p
  | ForceRebuild => forceRebuildConfirmed env p
  end.

Definition tryBlock (op : Operation) (p : ProjectConfig) : Js Cache unit :=
  match op with
  | Reload => reloadTry env p
  | ForceRebuild => forceRebuildTry env p
  end.

(** The cache call of an operation. *)
Definition cacheCall (op : Operation) (p : ProjectConfig) : Awaited Cache :=
  match op with
  | Reload => invalidateMarkdownContext (contextCache env) p true
  | ForceRebuild => clearForProject (contextCache env) p
  end.

(** The orchestrator lookup of both operations. *)
Definition lookupProjectManager : option (ProjectManager Cache) :=
  pluginProjectManager (getPlugin (app env) "copilot").

End Operations.

Definition errorLogMsg (op : Operation) : string :=
  match op with
  | Reload => reloadErrorLogMsg
  | ForceRebuild => rebuildErrorLogMsg
  end.

Definition failedMsg (op : Operation) : string :=
  match op with
  | Reload => reloadFailedMsg
  | ForceRebuild => rebuildFailedMsg
  end.

Definition unavailableMsg (op : Operation) : string :=
  match op with
  | Reload => reloadUnavailableMsg
  | ForceRebuild => rebuildUnavailableMsg
  end.

(** The modal that [forceRebuildCurrentProjectContext] builds for [p]. *)
Definition rebuildModal (p : ProjectConfig) : ConfirmModal :=
  mkConfirmModal (ForceRebuildOnConfirm p) (confirmMsg p) confirmTitle.

(** The world in which the prompt for [p] was built and opened, and then
    closed by the user's answer. *)
Definition prompted {Cache : Type} (p : ProjectConfig) (w : World Cache)
  : World Cache :=
  emit (EvModalOpen (rebuildModal p)) (emit (EvModalNew (rebuildModal p)) w).

(** [forceRebuildCurrentProjectContext()] followed by the user's answer
    to the prompt. *)
Definition answeredForceRebuild {Cache : Type} (env : Collaborators Cache)
    (confirmed : bool) : Js Cache unit :=
  forceRebuildCurrentProjectContext ;;
  answerModal env confirmed.

(** The calls an operation has made when it looks the orchestrator up,
    its cache call having fulfilled. *)
Definition callsBeforeLookup (op : Operation) (p : ProjectConfig) : list Event :=
  match op with
  | Reload =>
      [EvSetProjectLoading true; EvInvalidateMarkdownContext p true]
  | ForceRebuild =>
      [EvSetProjectLoading true; EvNotice (rebuildingMsg p) (Some 10000%Z);
       EvResetRateLimitNoticeTimer; EvClearForProject p;
       EvNotice (cacheClearedMsg p) None]
  end.

(** The cache an operation leaves behind, from cache [c0]: what its
    cache call leaves from [c0], followed, when that call fulfilled and
    the orchestrator is found, by what the recompute call for the
    project's id leaves from there. *)
Definition cacheAfterOperation {Cache : Type} (env : Collaborators Cache)
    (op : Operation) (p : ProjectConfig) (c0 : Cache) : Cache :=
  match cacheCall env op p c0 with
  | (Abrupt _, c1) => c1
  | (Normal _, c1) =>
      match lookupProjectManager env with
      | Some pm => snd (getProjectContext pm (id p) c1)
      | None => c1
      end
  end.

(** The collaborators [env] with another clear-all. *)
Definition withClearForProject {Cache : Type} (env : Collaborators Cache)
    (clearAll : ProjectConfig -> Awaited Cache) : Collaborators Cache :=
  mkCollaborators
    (mkContextCache (invalidateMarkdownContext (contextCache env)) clearAll)
    (app env) (isRateLimitError env).

(** The collaborators [env] with another invalidate-markdown. *)
Definition withInvalidateMarkdownContext {Cache : Type}
    (env : Collaborators Cache)
    (invalidate : ProjectConfig -> bool -> Awaited Cache) : Collaborators Cache :=
  mkCollaborators
    (mkContextCache invalidate (clearForProject (contextCache env)))
    (app env) (isRateLimitError env).

(** The timer after an operation: only ForceRebuild resets it. *)
Definition timerAfter {Cache : Type} (op : Operation) (w : World Cache) : Z :=
  match op with
  | Reload => lastRateLimitNoticeTime w
  | ForceRebuild => 0%Z
  end.

(* ================================================================== *)
(** ** Observations on the call log *)
(* ================================================================== *)

Definition project_eqb (p q : ProjectConfig) : bool :=
  String.eqb (id p) (id q) && String.eqb (name p) (name q).

(** The values written to the busy flag, in order. *)
Fixpoint loadingWrites (evs : list Event) : list bool :=
  match evs with
  | [] => []
  | EvSetProjectLoading b :: rest => b :: loadingWrites rest
  | _ :: rest => loadingWrites rest
  end.

(** invalidate-markdown, whatever its arguments. *)
Definition isInvalidateMarkdown (ev : Event) : bool :=
  match ev with
  | EvInvalidateMarkdownContext _ _ => true
  | _ => false
  end.

(** invalidate-markdown of [p] with the force-dependent-reload flag set. *)
Definition isForcedInvalidateOf (p : ProjectConfig) (ev : Event) : bool :=
  match ev with
  | EvInvalidateMarkdownContext q force => project_eqb p q && force
  | _ => false
  end.

(** clear-all, whatever its argument. *)
Definition isClearAll (ev : Event) : bool :=
  match ev with
  | EvClearForProject _ => true
  | _ => false
  end.

(** clear-all of [p]. *)
Definition isClearAllOf (p : ProjectConfig) (ev : Event) : bool :=
  match ev with
  | EvClearForProject q => project_eqb p q
  | _ => false
  end.

(** A call on the project cache. *)
Definition isCacheCall (ev : Event) : bool :=
  isInvalidateMarkdown ev || isClearAll ev.

(** The recompute call. *)
Definition isRecompute (ev : Event) : bool :=
  match ev with
  | EvGetProjectContext _ => true
  | _ => false
  end.

(** The steps that [forceRebuildCurrentProjectContext] keeps behind the
    confirmation: busy flag, timer reset, cache calls and recompute. *)
Definition isDestructiveStep (ev : Event) : bool :=
  match ev with
  | EvSetProjectLoading _ | EvResetRateLimitNoticeTimer
  | EvInvalidateMarkdownContext _ _ | EvClearForProject _
  | EvGetProjectContext _ => true
  | _ => false
  end.

Definition isNotice (ev : Event) : bool :=
  match ev with
  | EvNotice _ _ => true
  | _ => false
  end.

(** One of the two generic failure notifications. *)
Definition isGenericFailureNotice (ev : Event) : bool :=
  match ev with
  | EvNotice m None => String.eqb m reloadFailedMsg || String.eqb m rebuildFailedMsg
  | _ => false
  end.

Definition isLogError (ev : Event) : bool :=
  match ev with
  | EvLogError _ _ => true
  | _ => false
  end.

(** The building or the opening of a modal. *)
Definition isModalCall (ev : Event) : bool :=
  match ev with
  | EvModalNew _ | EvModalOpen _ => true
  | _ => false
  end.

(** How many events of a kind a log holds. *)
Definition countEvents (kind : Event -> bool) (evs : list Event) : nat :=
  length (filter kind evs).

(** No [later] event occurs in [evs] unless a [first] event occurred
    before it. *)
Fixpoint onlyAfter (first later : Event -> bool) (evs : list Event) : bool :=
  match evs with
  | [] => true
  | ev :: rest =>
      if first ev then true
      else negb (later ev) && onlyAfter first later rest
  end.

(** The notification part of a [catch] block: nothing for a rate-limit
    error, the generic failure notice otherwise. *)
Definition failureNotices {Cache : Type} (env : Collaborators Cache)
    (failedMsg : string) (e : Thrown) : list Event :=
  if isRateLimitError env e then [] else [EvNotice failedMsg None].

(** The world a workflow leaves behind: the project register and the
    modal stack untouched, the rest as given. *)
Definition leaves {Cache : Type} (w : World Cache) (loading : bool) (c : Cache)
    (timer : Z) (evs : list Event) : World Cache :=
  mkWorld (currentProject w) loading c timer (openModals w) (log w ++ evs).

(* ================================================================== *)
(** ** Paths through the two [try] blocks *)
(* ================================================================== *)

(** What a [catch] block adds to the log for the completion of its [try]
    block: nothing after a normal completion, the error log entry and the
    notification part after a throw. *)
Definition catchEvents {Cache : Type} (env : Collaborators Cache)
    (logMsg failedMsg : string) (r : Completion unit) : list Event :=
  match r with
  | Normal _ => []
  | Abrupt e => EvLogError logMsg e :: failureNotices env failedMsg e
  end.

Section Paths.
Context {Cache : Type}.
Variable env : Collaborators Cache.

(** The four ways through the [try] block of [reloadCurrentProject],
    from cache [c0]: the completion, the cache left behind and the
    calls made. *)
Inductive ReloadTryPath (p : ProjectConfig) (c0 : Cache)
  : Completion unit -> Cache -> list Event -> Prop :=
| ReloadInvalidateRejected e c1 :
    invalidateMarkdownContext (contextCache env) p true c0 = (Abrupt e, c1) ->
    ReloadTryPath p c0 (Abrupt e) c1
      [EvSetProjectLoading true; EvInvalidateMarkdownContext p true]
| ReloadUnavailable c1 :
    invalidateMarkdownContext (contextCache env) p true c0 = (Normal tt, c1) ->
    lookupProjectManager env = None ->
    ReloadTryPath p c0 (Abrupt (NewError reloadUnavailableMsg)) c1
      [EvSetProjectLoading true; EvInvalidateMarkdownContext p true]
| ReloadRecomputeRejected c1 pm e c2 :
    invalidateMarkdownContext (contextCache env) p true c0 = (Normal tt, c1) ->
    lookupProjectManager env = Some pm ->
    getProjectContext pm (id p) c1 = (Abrupt e, c2) ->
    ReloadTryPath p c0 (Abrupt e) c2
      [EvSetProjectLoading true; EvInvalidateMarkdownContext p true;
       EvGetProjectContext (id p)]
| ReloadFulfilled c1 pm c2 :
    invalidateMarkdownContext (contextCache env) p true c0 = (Normal tt, c1) ->
    lookupProjectManager env = Some pm ->
    getProjectContext pm (id p) c1 = (Normal tt, c2) ->
    ReloadTryPath p c0 (Normal tt) c2
      [EvSetProjectLoading true; EvInvalidateMarkdownContext p true;
       EvGetProjectContext (id p); EvNotice (reloadedMsg p) None].

(** The five ways through the [try] block of the confirmed callback of
    [forceRebuildCurrentProjectContext]. *)
Inductive ForceRebuildTryPath (p : ProjectConfig) (c0 : Cache)
  : Completion unit -> Cache -> list Event -> Prop :=
| RebuildClearRejected e c1 :
    clearForProject (contextCache env) p c0 = (Abrupt e, c1) ->
    ForceRebuildTryPath p c0 (Abrupt e) c1
      [EvSetProjectLoading true; EvNotice (rebuildingMsg p) (Some 10000%Z);
       EvResetRateLimitNoticeTimer; EvClearForProject p]
| RebuildUnavailable c1 :
    clearForProject (contextCache env) p c0 = (Normal tt, c1) ->
    lookupProjectManager env = None ->
    ForceRebuildTryPath p c0 (Abrupt (NewError rebuildUnavailableMsg)) c1
      [EvSetProjectLoading true; EvNotice (rebuildingMsg p) (Some 10000%Z);
       EvResetRateLimitNoticeTimer; EvClearForProject p;
       EvNotice (cacheClearedMsg p) None]
| RebuildRecomputeRejected c1 pm e c2 :
    clearForProject (contextCache env) p c0 = (Normal tt, c1) ->
    lookupProjectManager env = Some pm ->
    getProjectContext pm (id p) c1 = (Abrupt e, c2) ->
    ForceRebuildTryPath p c0 (Abrupt e) c2
      [EvSetProjectLoading true; EvNotice (rebuildingMsg p) (Some 10000%Z);
       EvResetRateLimitNoticeTimer; EvClearForProject p;
       EvNotice (cacheClearedMsg p) None; EvGetProjectContext (id p)]
| RebuildFulfilled c1 pm c2 :
    clearForProject (contextCache env) p c0 = (Normal tt, c1) ->
    lookupProjectManager env = Some pm ->
    getProjectContext pm (id p) c1 = (Normal tt, c2) ->
    ForceRebuildTryPath p c0 (Normal tt) c2
      [EvSetProjectLoading true; EvNotice (rebuildingMsg p) (Some 10000%Z);
       EvResetRateLimitNoticeTimer; EvClearForProject p;
       EvNotice (cacheClearedMsg p) None; EvGetProjectContext (id p);
       EvNotice (rebuiltMsg p) None].

(** The paths of either operation. *)
Definition TryPath (op : Operation) (p : ProjectConfig) (c0 : Cache)
  : Completion unit -> Cache -> list Event -> Prop :=
  match op with
  | Reload => ReloadTryPath p c0
  | ForceRebuild => ForceRebuildTryPath p c0
  end.

End Paths.

(* ================================================================== *)
(** ** Concrete collaborators for the examples *)
(* ================================================================== *)

Module Demo.

(** A cache as the list of (project id, content kind) pairs it holds. *)
Definition Cache : Type := list (string * string).

Definition ofProject (p : ProjectConfig) (entry : string * string) : bool :=
  String.eqb (fst entry) (id p).

Definition isMarkdown (entry : string * string) : bool :=
  String.eqb (snd entry) "markdown".

Definition dropMarkdown (p : ProjectConfig) (force : bool) : Awaited Cache :=
  fun c =>
    (Normal tt,
     filter (fun entry => negb (ofProject p entry && (isMarkdown entry || force))) c).

Definition dropAll (p : ProjectConfig) : Awaited Cache :=
  fun c => (Normal tt, filter (fun entry => negb (ofProject p entry)) c).

Definition caches : ProjectContextCache Cache :=
  mkContextCache dropMarkdown dropAll.

(** A manager whose recompute either refills the markdown entry or
    rejects with [e] and leaves the cache as it found it. *)
Definition manager (failure : option Thrown) : ProjectManager Cache :=
  mkProjectManager
    (fun pid c =>
       match failure with
       | None => (Normal tt, (pid, "markdown") :: c)
       | Some e => (Abrupt e, c)
       end).

Definition rateLimitMsg : string := "Request rate limit exceeded".

Definition classify (e : Thrown) : bool :=
  match e with
  | NewError m => String.eqb m rateLimitMsg
  end.

(** The host with the plugin installed and its manager present. *)
Definition envWith (failure : option Thrown) : Collaborators Cache :=
  mkCollaborators caches
    (mkApp (fun _ => Some (mkPlugin (Some (manager failure)))))
    classify.

Definition envFulfilled : Collaborators Cache := envWith None.

Definition envRateLimited : Collaborators Cache :=
  envWith (Some (NewError rateLimitMsg)).

Definition envOffline : Collaborators Cache :=
  envWith (Some (NewError "network unreachable")).

(** The host without the plugin. *)
Definition envNoPlugin : Collaborators Cache :=
  mkCollaborators caches (mkApp (fun _ => None)) classify.


Definition thesis : ProjectConfig := mkProject "p1" "Thesis".

Definition idle : World Cache :=
  mkWorld (Some thesis) false
          [("p1", "markdown"); ("p1", "web"); ("p2", "markdown")]
          1700000000%Z [] [].

Definition nothingSelected : World Cache :=
  mkWorld None false
          [("p1", "markdown"); ("p1", "web"); ("p2", "markdown")]
          1700000000%Z [] [].

End Demo.

(* ================================================================== *)
(** ** The vault index actions *)
(* ================================================================== *)

(** Every call [refreshVaultIndex] and [forceReindexVault] make, in the
    order in which it happens. *)
Inductive IndexEvent : Type :=
| IxIndexVaultToVectorStore (overwrite : option bool)
| IxNotice (message : string) (duration : option Z)
| IxConsoleError (message : string) (error : Thrown).

(** [VectorStoreManager.getInstance()]: the one operation used here,
    awaited.  The argument is absent in [refreshVaultIndex] and [true] in
    [forceReindexVault]; the number the promise carries is not used. *)
Record VectorStoreManager (Store : Type) : Type := mkVectorStoreManager {
  indexVaultToVectorStore : option bool -> Awaited Store
}.

(** The state the two index actions run in: the vector store and their
    call log. *)
Record IndexWorld (Store : Type) : Type := mkIndexWorld {
  vectorStore : Store;
  indexLog : list IndexEvent
}.

Definition Ix (Store : Type) (A : Type) : Type :=
  IndexWorld Store -> Completion A * IndexWorld Store.

Definition Ix_ret {Store A : Type} (a : A) : Ix Store A :=
  fun w => (Normal a, w).

Definition Ix_bind {Store A B : Type} (c : Ix Store A) (k : A -> Ix Store B)
  : Ix Store B :=
  fun w =>
    match c w with
    | (Normal a, w1) => k a w1
    | (Abrupt e, w1) => (Abrupt e, w1)
    end.

#[global] Instance Monad_Ix (Store : Type) : Monad (Ix Store) := {|
  ret := @Ix_ret Store;
  bind := @Ix_bind Store
|}.

(** [try { body } catch (error) { handler }]. *)
Definition try_catch {Store A : Type}
    (body : Ix Store A) (handler : Thrown -> Ix Store A) : Ix Store A :=
  fun w =>
    match body w with
    | (Normal a, w1) => (Normal a, w1)
    | (Abrupt e, w1) => handler e w1
    end.

Definition vaultRefreshedMsg : string := "Vault index refreshed.".

Definition refreshErrorLogMsg : string := "Error refreshing vault index:".

Definition refreshFailedMsg : string :=
  "Failed to refresh vault index. Check console for details.".

Definition vaultReindexedMsg : string := "Vault force reindexed.".

Definition reindexErrorLogMsg : string := "Error force reindexing vault:".

Definition reindexFailedMsg : string :=
  "Failed to force reindex vault. Check console for details.".

Section IndexActions.
Context {Store : Type}.
Variable manager : VectorStoreManager Store.

Definition ixEmit (ev : IndexEvent) (w : IndexWorld Store) : IndexWorld Store :=
  mkIndexWorld (vectorStore w) (indexLog w ++ [ev]).

(** [new Notice(message, duration?)]. *)
Definition ixNotice (message : string) (duration : option Z) : Ix Store unit :=
  fun w => (Normal tt, ixEmit (IxNotice message duration) w).

(** [console.error(message, error)]. *)
Definition consoleError (message : string) (error : Thrown) : Ix Store unit :=
  fun w => (Normal tt, ixEmit (IxConsoleError message error) w).

(** [await VectorStoreManager.getInstance().indexVaultToVectorStore(overwrite?)]:
    the call is logged when it is made, the store is left as the manager
    leaves it, and a rejection is thrown. *)
Definition awaitIndexVault (overwrite : option bool) : Ix Store unit :=
  fun w =>
    let (r, s) := indexVaultToVectorStore manager overwrite (vectorStore w) in
    (r, mkIndexWorld s (indexLog w ++ [IxIndexVaultToVectorStore overwrite])).

Definition refreshVaultIndex : Ix Store unit :=
  try_catch
    (awaitIndexVault None ;;
     ixNotice vaultRefreshedMsg None)
    (fun error =>
       consoleError refreshErrorLogMsg error ;;
       ixNotice refreshFailedMsg None).

Definition forceReindexVault : Ix Store unit :=
  try_catch
    (awaitIndexVault (Some true) ;;
     ixNotice vaultReindexedMsg None)
    (fun error =>
       consoleError reindexErrorLogMsg error ;;
       ixNotice reindexFailedMsg None).

End IndexActions.

(** The two index actions side by side. *)
Inductive IndexAction : Type :=
| RefreshIndex
| ForceReindex.

Definition indexAction {Store : Type} (manager : VectorStoreManager Store)
    (a : IndexAction) : Ix Store unit :=
  match a with
  | RefreshIndex => refreshVaultIndex manager
  | ForceReindex => forceReindexVault manager
  end.

(** The argument an action passes to [indexVaultToVectorStore]. *)
Definition overwriteArgument (a : IndexAction) : option bool :=
  match a with
  | RefreshIndex => None
  | ForceReindex => Some true
  end.

Definition indexedMsg (a : IndexAction) : string :=
  match a with
  | RefreshIndex => vaultRefreshedMsg
  | ForceReindex => vaultReindexedMsg
  end.

Definition indexErrorLogMsg (a : IndexAction) : string :=
  match a with
  | RefreshIndex => refreshErrorLogMsg
  | ForceReindex => reindexErrorLogMsg
  end.

Definition indexFailedMsg (a : IndexAction) : string :=
  match a with
  | RefreshIndex => refreshFailedMsg
  | ForceReindex => reindexFailedMsg
  end.

Definition isIxNotice (ev : IndexEvent) : bool :=
  match ev with
  | IxNotice _ _ => true
  | _ => false
  end.

Definition isIxIndexCall (ev : IndexEvent) : bool :=
  match ev with
  | IxIndexVaultToVectorStore _ => true
  | _ => false
  end.

Definition isIxConsoleError (ev : IndexEvent) : bool :=
  match ev with
  | IxConsoleError _ _ => true
  | _ => false
  end.

Definition countIx (kind : IndexEvent -> bool) (evs : list IndexEvent) : nat :=
  length (filter kind evs).

(** What an index action logs after its index call, given how that call
    settled. *)
Definition indexReport (a : IndexAction) (r : Completion unit) : list IndexEvent :=
  match r with
  | Normal _ => [IxNotice (indexedMsg a) None]
  | Abrupt e =>
      [IxConsoleError (indexErrorLogMsg a) e; IxNotice (indexFailedMsg a) None]
  end.

(* ================================================================== *)
(** ** The mode switch of the control bar *)
(* ================================================================== *)

(** The properties of the [ChatControls] component.  The handlers are
    supplied by the parent and may do anything to the shared state;
    [onCloseProject] is optional. *)
Record ChatControlsProps (Cache Chain : Type) : Type := mkChatControlsProps {
  onNewChat : Js Cache unit;
  onSaveAsNote : Js Cache unit;
  onLoadHistory : Js Cache unit;
  onModeChange : Chain -> Js Cache unit;
  onCloseProject : option (Js Cache unit)
}.

(** The world [w] with the project register holding [project]. *)
Definition withProject {Cache : Type} (project : option ProjectConfig)
    (w : World Cache) : World Cache :=
  mkWorld project (projectLoading w) (cache w)
          (lastRateLimitNoticeTime w) (openModals w) (log w).

(** Modelled from the spec: [setCurrentProject] of [@/aiParams] is not
    among the sources; it writes the register of the active project. *)
Definition setCurrentProject {Cache : Type} (project : option ProjectConfig)
  : Js Cache unit :=
  fun w => (Normal tt, withProject project w).

Section ModeSwitch.
Context {Cache Chain : Type}.

(** [ChainType.PROJECT_CHAIN] and the strict comparison of chain types;
    the enumeration of [@/chainFactory] is not among the sources. *)
Variable PROJECT_CHAIN : Chain.
Variable chain_eq_dec : forall a b : Chain, {a = b} + {a <> b}.

(** The setter returned by [useChainType()]. *)
Variable setSelectedChain : Chain -> Js Cache unit.

Variable props : ChatControlsProps Cache Chain.

(** [a !== b]. *)
Definition strictNotEqual (a b : Chain) : bool :=
  if chain_eq_dec a b then false else true.

(** [onCloseProject?.()]. *)
Definition callOnCloseProject : Js Cache unit :=
  match onCloseProject props with
  | Some handler => handler
  | None => ret tt
  end.

Definition handleModeChange (chainType : Chain) : Js Cache unit :=
  setSelectedChain chainType ;;
  onModeChange props chainType ;;
  if strictNotEqual chainType PROJECT_CHAIN
  then setCurrentProject None ;; callOnCloseProject
  else ret tt.

End ModeSwitch.

(** A prompt that is answered with a confirmation after the register
    was set to [selection]: [forceRebuildCurrentProjectContext()], then
    [setCurrentProject(selection)], then the user's confirmation. *)
Definition confirmedAfterSelecting {Cache : Type} (env : Collaborators Cache)
    (selection : option ProjectConfig) : Js Cache unit :=
  forceRebuildCurrentProjectContext ;;
  setCurrentProject selection ;;
  answerModal env true.

(** The success notice of an operation. *)
Definition successMsg (op : Operation) (p : ProjectConfig) : string :=
  match op with
  | Reload => reloadedMsg p
  | ForceRebuild => rebuiltMsg p
  end.

(** The calls an operation has made when its cache call settles. *)
Definition callsUntilCacheCall (op : Operation) (p : ProjectConfig) : list Event :=
  match op with
  | Reload =>
      [EvSetProjectLoading true; EvInvalidateMarkdownContext p true]
  | ForceRebuild =>
      [EvSetProjectLoading true; EvNotice (rebuildingMsg p) (Some 10000%Z);
       EvResetRateLimitNoticeTimer; EvClearForProject p]
  end.

(** A notice with the given message and no duration. *)
Definition isNoticeOf (message : string) (ev : Event) : bool :=
  match ev with
  | EvNotice m None => String.eqb m message
  | _ => false
  end.

(** A reset of the rate-limit notice timer. *)
Definition isTimerReset (ev : Event) : bool :=
  match ev with
  | EvResetRateLimitNoticeTimer => true
  | _ => false
  end.

(** A recompute call for another project id than [projectId]. *)
Definition isRecomputeOfOther (projectId : string) (ev : Event) : bool :=
  match ev with
  | EvGetProjectContext i => negb (String.eqb i projectId)
  | _ => false
  end.

(** A clear-all of another project than [p]. *)
Definition isClearAllOfOther (p : ProjectConfig) (ev : Event) : bool :=
  match ev with
  | EvClearForProject q => negb (project_eqb p q)
  | _ => false
  end.

Module DemoFailures.

(** Collaborators whose clear-all rejects and leaves the cache alone. *)
Definition envDiskFull : Collaborators Demo.Cache :=
  mkCollaborators
    (mkContextCache Demo.dropMarkdown
       (fun _ c => (Abrupt (NewError "disk full"), c)))
    (app Demo.envFulfilled) Demo.classify.

End DemoFailures.

Module DemoIndex.

(** A vector store as the list of indexed note paths. *)
Definition Store : Type := list string.

(** A manager that indexes one more note, wiping the store first when
    asked to overwrite, or rejects with [failure] and leaves the store. *)
Definition manager (failure : option Thrown) : VectorStoreManager Store :=
  mkVectorStoreManager
    (fun overwrite s =>
       match failure with
       | Some e => (Abrupt e, s)
       | None =>
           (Normal tt,
            match overwrite with
            | Some true => ["note.md"]
            | _ => "note.md" :: s
            end)
       end).

Definition stale : IndexWorld Store := mkIndexWorld ["old.md"] [].

End DemoIndex.

Module DemoMode.

(** Chain types as the strings of the enumeration. *)
Definition Chain : Type := string.

Definition PROJECT_CHAIN : Chain := "project".

(** A parent whose handlers do nothing and that passes no
    [onCloseProject]. *)
Definition quietProps : ChatControlsProps Demo.Cache Chain :=
  mkChatControlsProps (ret tt) (ret tt) (ret tt) (fun _ => ret tt) None.

(** A parent whose [onModeChange] throws. *)
Definition throwingProps : ChatControlsProps Demo.Cache Chain :=
  mkChatControlsProps (ret tt) (ret tt) (ret tt)
    (fun _ => throw (NewError "mode change refused")) None.

Definition setSelectedChain (chainType : Chain) : Js Demo.Cache unit := ret tt.

Definition otherProject : ProjectConfig := mkProject "p2" "Notes".

End DemoMode.

(* ================================================================== *)
(** ** Running the workflows *)
(* ================================================================== *)

Local Open Scope list_scope.
Unset Implicit Arguments.

Lemma leaves_leaves {Cache : Type} (w : World Cache) b1 c1 t1 evs1 b2 c2 t2 evs2 :
  leaves (leaves w b1 c1 t1 evs1) b2 c2 t2 evs2 = leaves w b2 c2 t2 (evs1 ++ evs2).
Proof. unfold leaves; cbn. now rewrite app_assoc. Qed.

Lemma log_leaves {Cache : Type} (w : World Cache) b c t evs :
  log (leaves w b c t evs) = log w ++ evs.
Proof. reflexivity. Qed.

(** Unfolds the monad and the primitives of a run. *)
Ltac js_unfold :=
  cbn;
  unfold Js_bind, Js_ret, try_catch_finally, setProjectLoading, newNotice,
    logError, resetRateLimitNoticeTimer, await, newConfirmModal, openModal,
    getCurrentProject, throw, emit, leaves;
  cbn.

(** Brings a log built by successive appends to the form [log w ++ evs]. *)
Ltac js_log := repeat rewrite <- app_assoc; cbn.

Section Runs.
Context {Cache : Type}.
Variable env : Collaborators Cache.

(** The [try] block of [reloadCurrentProject] follows one of its four
    paths, whatever the collaborators do. *)
Lemma reloadTry_path (p : ProjectConfig) (w : World Cache) :
  exists r c evs,
    ReloadTryPath env p (cache w) r c evs /\
    reloadTry env p w = (r, leaves w true c (lastRateLimitNoticeTime w) evs).
Proof.
  destruct (invalidateMarkdownContext (contextCache env) p true (cache w))
    as [[[] | e] c1] eqn:Hinv.
  - destruct (lookupProjectManager env) as [pm |] eqn:Hpm.
    + destruct (getProjectContext pm (id p) c1) as [[[] | e] c2] eqn:Hctx.
      * exists (Normal tt), c2; eexists; split;
          [ eapply ReloadFulfilled; eassumption | ].
        unfold reloadTry; fold (lookupProjectManager env); rewrite Hpm.
        js_unfold. rewrite Hinv; cbn. rewrite Hctx; cbn. js_log. reflexivity.
      * exists (Abrupt e), c2; eexists; split;
          [ eapply ReloadRecomputeRejected; eassumption | ].
        unfold reloadTry; fold (lookupProjectManager env); rewrite Hpm.
        js_unfold. rewrite Hinv; cbn. rewrite Hctx; cbn. js_log. reflexivity.
    + exists (Abrupt (NewError reloadUnavailableMsg)), c1; eexists; split;
        [ eapply ReloadUnavailable; eassumption | ].
      unfold reloadTry; fold (lookupProjectManager env); rewrite Hpm.
      js_unfold. rewrite Hinv; cbn. js_log. reflexivity.
  - exists (Abrupt e), c1; eexists; split;
      [ eapply ReloadInvalidateRejected; eassumption | ].
    unfold reloadTry. js_unfold. rewrite Hinv; cbn. js_log. reflexivity.
Qed.

(** The [try] block of the confirmed callback follows one of its five
    paths; the timer is reset on each of them. *)
Lemma forceRebuildTry_path (p : ProjectConfig) (w : World Cache) :
  exists r c evs,
    ForceRebuildTryPath env p (cache w) r c evs /\
    forceRebuildTry env p w = (r, leaves w true c 0%Z evs).
Proof.
  destruct (clearForProject (contextCache env) p (cache w))
    as [[[] | e] c1] eqn:Hclr.
  - destruct (lookupProjectManager env) as [pm |] eqn:Hpm.
    + destruct (getProjectContext pm (id p) c1) as [[[] | e] c2] eqn:Hctx.
      * exists (Normal tt), c2; eexists; split;
          [ eapply RebuildFulfilled; eassumption | ].
        unfold forceRebuildTry; fold (lookupProjectManager env); rewrite Hpm.
        js_unfold. rewrite Hclr; cbn. rewrite Hctx; cbn. js_log. reflexivity.
      * exists (Abrupt e), c2; eexists; split;
          [ eapply RebuildRecomputeRejected; eassumption | ].
        unfold forceRebuildTry; fold (lookupProjectManager env); rewrite Hpm.
        js_unfold. rewrite Hclr; cbn. rewrite Hctx; cbn. js_log. reflexivity.
    + exists (Abrupt (NewError rebuildUnavailableMsg)), c1; eexists; split;
        [ eapply RebuildUnavailable; eassumption | ].
      unfold forceRebuildTry; fold (lookupProjectManager env); rewrite Hpm.
      js_unfold. rewrite Hclr; cbn. js_log. reflexivity.
  - exists (Abrupt e), c1; eexists; split;
      [ eapply RebuildClearRejected; eassumption | ].
    unfold forceRebuildTry. js_unfold. rewrite Hclr; cbn. js_log. reflexivity.
Qed.

(** [catch] and [finally] of [reloadCurrentProject], after a [try]
    block that completed with [r]: the error is logged and classified,
    the busy flag is cleared, and the statement completes normally. *)
Lemma reload_after_try {p : ProjectConfig} {w w1 : World Cache} {r : Completion unit} :
  reloadTry env p w = (r, w1) ->
  reloadProject env p w =
    (Normal tt,
     leaves w1 false (cache w1) (lastRateLimitNoticeTime w1)
       (catchEvents env reloadErrorLogMsg reloadFailedMsg r
        ++ [EvSetProjectLoading false])).
Proof.
  intros Htry.
  unfold reloadProject, try_catch_finally. rewrite Htry.
  destruct r as [[] | e]; cbn.
  - reflexivity.
  - unfold reloadCatch, failureNotices; cbn. unfold Js_bind.
    destruct (isRateLimitError env e); js_unfold; js_log; reflexivity.
Qed.

(** The same for the confirmed callback. *)
Lemma forceRebuild_after_try {p : ProjectConfig} {w w1 : World Cache}
    {r : Completion unit} :
  forceRebuildTry env p w = (r, w1) ->
  forceRebuildConfirmed env p w =
    (Normal tt,
     leaves w1 false (cache w1) (lastRateLimitNoticeTime w1)
       (catchEvents env rebuildErrorLogMsg rebuildFailedMsg r
        ++ [EvSetProjectLoading false])).
Proof.
  intros Htry.
  unfold forceRebuildConfirmed, try_catch_finally. rewrite Htry.
  destruct r as [[] | e]; cbn.
  - reflexivity.
  - unfold forceRebuildCatch, failureNotices; cbn. unfold Js_bind.
    destruct (isRateLimitError env e); js_unfold; js_log; reflexivity.
Qed.

(** Either operation: its [try] block follows one of its paths, and
    the operation completes normally with the busy flag cleared, the
    cache as the [try] block left it, and the log extended by the
    calls of the path, of the [catch] block and of the [finally]
    block. *)
Lemma operation_run (op : Operation) (p : ProjectConfig) (w : World Cache) :
  exists r c evs,
    TryPath env op p (cache w) r c evs /\
    tryBlock env op p w = (r, leaves w true c (timerAfter op w) evs) /\
    operation env op p w =
      (Normal tt,
       leaves w false c (timerAfter op w)
         (evs ++ catchEvents env (errorLogMsg op) (failedMsg op) r
              ++ [EvSetProjectLoading false])).
Proof.
  destruct op; cbn [TryPath tryBlock operation timerAfter errorLogMsg failedMsg].
  - destruct (reloadTry_path p w) as (r & c & evs & Hpath & Htry).
    exists r, c, evs. repeat split; try assumption.
    rewrite (reload_after_try Htry), leaves_leaves. reflexivity.
  - destruct (forceRebuildTry_path p w) as (r & c & evs & Hpath & Htry).
    exists r, c, evs. repeat split; try assumption.
    rewrite (forceRebuild_after_try Htry), leaves_leaves. reflexivity.
Qed.

(** With a project selected, [reloadCurrentProject] is the Reload
    operation on it. *)
Lemma reload_selected {p : ProjectConfig} {w : World Cache} :
  currentProject w = Some p ->
  reloadCurrentProject env w = operation env Reload p w.
Proof.
  intros Hp.
  cbv beta iota delta [reloadCurrentProject bind Monad_Js Js_bind getCurrentProject].
  rewrite Hp. reflexivity.
Qed.

(** With no project selected, [reloadCurrentProject] only shows its
    notice. *)
Lemma reload_unselected {w : World Cache} :
  currentProject w = None ->
  reloadCurrentProject env w =
    (Normal tt,
     leaves w (projectLoading w) (cache w) (lastRateLimitNoticeTime w)
       [EvNotice noProjectToReloadMsg None]).
Proof.
  intros Hp.
  cbv beta iota delta [reloadCurrentProject bind Monad_Js Js_bind getCurrentProject].
  rewrite Hp. reflexivity.
Qed.

(** With no project selected, [forceRebuildCurrentProjectContext] only
    shows its notice. *)
Lemma forceRebuild_unselected {w : World Cache} :
  currentProject w = None ->
  forceRebuildCurrentProjectContext w =
    (Normal tt,
     leaves w (projectLoading w) (cache w) (lastRateLimitNoticeTime w)
       [EvNotice noProjectToRebuildMsg None]).
Proof.
  intros Hp.
  cbv beta iota delta
    [forceRebuildCurrentProjectContext bind Monad_Js Js_bind getCurrentProject].
  rewrite Hp. reflexivity.
Qed.

(** With a project selected, [forceRebuildCurrentProjectContext] builds
    and opens the prompt and does nothing else. *)
Lemma forceRebuild_selected {p : ProjectConfig} {w : World Cache} :
  currentProject w = Some p ->
  forceRebuildCurrentProjectContext w =
    openModal (rebuildModal p) (emit (EvModalNew (rebuildModal p)) w).
Proof.
  intros Hp.
  cbv beta iota delta
    [forceRebuildCurrentProjectContext bind Monad_Js Js_bind getCurrentProject].
  rewrite Hp. reflexivity.
Qed.

End Runs.

(* ================================================================== *)
(** ** Sample runs *)
(* ================================================================== *)

(** A reload that succeeds. *)
Example reload_fulfilled_run :
  reloadCurrentProject Demo.envFulfilled Demo.idle =
    (Normal tt,
     mkWorld (Some Demo.thesis) false
       [("p1", "markdown"); ("p2", "markdown")]%string 1700000000%Z []
       [EvSetProjectLoading true;
        EvInvalidateMarkdownContext Demo.thesis true;
        EvGetProjectContext "p1";
        EvNotice (reloadedMsg Demo.thesis) None;
        EvSetProjectLoading false]).
Proof. reflexivity. Qed.

(** A reload whose recompute call is throttled: logged, no notice. *)
Example reload_rate_limited_run :
  log (snd (reloadCurrentProject Demo.envRateLimited Demo.idle)) =
    [EvSetProjectLoading true;
     EvInvalidateMarkdownContext Demo.thesis true;
     EvGetProjectContext "p1";
     EvLogError reloadErrorLogMsg (NewError Demo.rateLimitMsg);
     EvSetProjectLoading false].
Proof. reflexivity. Qed.

(** A reload without the plugin: logged and notified. *)
Example reload_no_plugin_run :
  log (snd (reloadCurrentProject Demo.envNoPlugin Demo.idle)) =
    [EvSetProjectLoading true;
     EvInvalidateMarkdownContext Demo.thesis true;
     EvLogError reloadErrorLogMsg (NewError reloadUnavailableMsg);
     EvNotice reloadFailedMsg None;
     EvSetProjectLoading false].
Proof. reflexivity. Qed.

(** A confirmed rebuild whose recompute call fails. *)
Example rebuild_confirmed_offline_run :
  answeredForceRebuild Demo.envOffline true Demo.idle =
    (Normal tt,
     mkWorld (Some Demo.thesis) false [("p2", "markdown")]%string 0%Z []
       [EvModalNew (rebuildModal Demo.thesis);
        EvModalOpen (rebuildModal Demo.thesis);
        EvSetProjectLoading true;
        EvNotice (rebuildingMsg Demo.thesis) (Some 10000%Z);
        EvResetRateLimitNoticeTimer;
        EvClearForProject Demo.thesis;
        EvNotice (cacheClearedMsg Demo.thesis) None;
        EvGetProjectContext "p1";
        EvLogError rebuildErrorLogMsg (NewError "network unreachable");
        EvNotice rebuildFailedMsg None;
        EvSetProjectLoading false]).
Proof. reflexivity. Qed.

(** A dismissed rebuild: the prompt was opened, nothing else happened. *)
Example rebuild_dismissed_run :
  answeredForceRebuild Demo.envOffline false Demo.idle =
    (Normal tt,
     mkWorld (Some Demo.thesis) false (cache Demo.idle) 1700000000%Z []
       [EvModalNew (rebuildModal Demo.thesis);
        EvModalOpen (rebuildModal Demo.thesis)]).
Proof. reflexivity. Qed.

(* ================================================================== *)
(** ** Facts about messages, counts and paths *)
(* ================================================================== *)

Lemma project_eqb_refl (p : ProjectConfig) : project_eqb p p = true.
Proof. unfold project_eqb. now rewrite !String.eqb_refl. Qed.

Lemma countEvents_app (kind : Event -> bool) (xs ys : list Event) :
  countEvents kind (xs ++ ys) = countEvents kind xs + countEvents kind ys.
Proof. unfold countEvents. now rewrite filter_app, length_app. Qed.

Lemma loadingWrites_app (xs ys : list Event) :
  loadingWrites (xs ++ ys) = loadingWrites xs ++ loadingWrites ys.
Proof.
  induction xs as [| [] xs IH]; cbn; try assumption.
  - reflexivity.
  - now rewrite IH.
Qed.

(** The success and progress notices are not failure notices, whatever
    the project is called. *)
Lemma reloaded_not_failure (p : ProjectConfig) :
  isGenericFailureNotice (EvNotice (reloadedMsg p) None) = false.
Proof. reflexivity. Qed.

Lemma rebuilt_not_failure (p : ProjectConfig) :
  isGenericFailureNotice (EvNotice (rebuiltMsg p) None) = false.
Proof. reflexivity. Qed.

Lemma cacheCleared_not_failure (p : ProjectConfig) :
  isGenericFailureNotice (EvNotice (cacheClearedMsg p) None) = false.
Proof. reflexivity. Qed.

Lemma failed_is_failure (op : Operation) :
  isGenericFailureNotice (EvNotice (failedMsg op) None) = true.
Proof. destruct op; reflexivity. Qed.

Section CatchFacts.
Context {Cache : Type}.
Variable env : Collaborators Cache.

(** The [catch] block shows the generic failure notice once for an
    error that is not a rate-limit error, and not at all otherwise. *)
Lemma failureNotices_count (op : Operation) (e : Thrown) :
  countEvents isGenericFailureNotice (failureNotices env (failedMsg op) e)
  = if isRateLimitError env e then 0 else 1.
Proof.
  unfold failureNotices. destruct (isRateLimitError env e); [reflexivity |].
  unfold countEvents; cbn [filter]. now rewrite failed_is_failure.
Qed.

Lemma failureNotices_loading (msg : string) (e : Thrown) :
  loadingWrites (failureNotices env msg e) = [].
Proof. unfold failureNotices. now destruct (isRateLimitError env e). Qed.

Lemma failureNotices_kind (kind : Event -> bool) (msg : string) (e : Thrown) :
  (forall m d, kind (EvNotice m d) = false) ->
  countEvents kind (failureNotices env msg e) = 0.
Proof.
  intros Hk. unfold failureNotices, countEvents.
  destruct (isRateLimitError env e); cbn; [reflexivity |].
  now rewrite Hk.
Qed.

Lemma catchEvents_loading (logMsg failed : string) (r : Completion unit) :
  loadingWrites (catchEvents env logMsg failed r) = [].
Proof.
  destruct r as [u | e]; cbn; [reflexivity | apply failureNotices_loading].
Qed.

End CatchFacts.

(** Splits a path of either operation into its cases. *)
Ltac path_cases H :=
  match type of H with
  | TryPath _ ?op _ _ _ _ _ =>
      destruct op; cbn [TryPath] in H; inversion H; subst; clear H
  end.

Section PathFacts.
Context {Cache : Type} {env : Collaborators Cache}.
Context {op : Operation} {p : ProjectConfig} {c0 c : Cache}.
Context {r : Completion unit} {evs : list Event}.
Hypothesis Hpath : TryPath env op p c0 r c evs.

(** A [try] block starts by raising the busy flag and never writes it
    again. *)
Lemma path_loading :
  exists rest, evs = EvSetProjectLoading true :: rest /\ loadingWrites rest = [].
Proof. path_cases Hpath; eexists; split; reflexivity. Qed.

(** A [try] block shows no failure notice and logs no error. *)
Lemma path_no_failure_notice : countEvents isGenericFailureNotice evs = 0.
Proof. path_cases Hpath; reflexivity. Qed.

Lemma path_no_log_error : countEvents isLogError evs = 0.
Proof. path_cases Hpath; reflexivity. Qed.

(** A [try] block makes exactly one cache call. *)
Lemma path_one_cache_call : countEvents isCacheCall evs = 1.
Proof. path_cases Hpath; reflexivity. Qed.

End PathFacts.

Section EntryFacts.
Context {Cache : Type}.
Variable env : Collaborators Cache.

(** [forceRebuildCurrentProjectContext] itself always completes
    normally and leaves the busy flag, the cache and the timer alone. *)
Lemma forceRebuild_entry (w : World Cache) :
  exists w1,
    forceRebuildCurrentProjectContext w = (Normal tt, w1) /\
    projectLoading w1 = projectLoading w /\
    cache w1 = cache w /\
    lastRateLimitNoticeTime w1 = lastRateLimitNoticeTime w.
Proof.
  destruct (currentProject w) as [p |] eqn:Hp.
  - rewrite (forceRebuild_selected Hp). eexists; split; [reflexivity |].
    cbn. auto.
  - rewrite (forceRebuild_unselected Hp). eexists; split; [reflexivity |].
    cbn. auto.
Qed.

(** Answering the prompt keeps a lowered busy flag lowered: either
    nothing runs, or the callback runs and lowers it at its end. *)
Lemma answerModal_loading (confirmed : bool) (w : World Cache) :
  projectLoading w = false ->
  projectLoading (snd (answerModal env confirmed w)) = false.
Proof.
  intros Hw. unfold answerModal.
  destruct (openModals w) as [| modal rest]; [exact Hw |].
  destruct confirmed; [| exact Hw].
  destruct (onConfirm modal) as [q]; cbn [callClosure].
  match goal with |- context [forceRebuildConfirmed env q ?w1] =>
    destruct (operation_run env ForceRebuild q w1) as (r & c & evs & _ & _ & Hop)
  end.
  cbn [operation] in Hop. rewrite Hop. reflexivity.
Qed.

(** The answered flow is the entry point followed by the answer. *)
Lemma answered_unfold (confirmed : bool) (w : World Cache) :
  answeredForceRebuild env confirmed w =
    answerModal env confirmed (snd (forceRebuildCurrentProjectContext w)).
Proof.
  destruct (forceRebuild_entry w) as (w1 & Hrun & _).
  unfold answeredForceRebuild.
  cbv beta iota delta [bind Monad_Js Js_bind].
  rewrite Hrun. reflexivity.
Qed.

(** With a project selected, a confirmed prompt runs the ForceRebuild
    operation right after the prompt was opened; a dismissed one runs
    nothing. *)
Lemma answered_selected (confirmed : bool) (p : ProjectConfig) (w : World Cache) :
  currentProject w = Some p ->
  answeredForceRebuild env confirmed w =
    if confirmed
    then operation env ForceRebuild p (prompted p w)
    else (Normal tt, prompted p w).
Proof.
  intros Hp. rewrite answered_unfold, (forceRebuild_selected Hp).
  destruct confirmed; reflexivity.
Qed.

End EntryFacts.

(* ================================================================== *)
(** ** The busy flag *)
(* ================================================================== *)

(** C1.  For Reload (the [try] statement of [reloadCurrentProject]) and
    for ForceRebuild (the confirmed callback of
    [forceRebuildCurrentProjectContext]), from a world whose busy flag is
    lowered: the operation completes normally whatever the collaborators
    do (success, suppressed rate-limit failure or generic failure), the
    flag is lowered again when it ends, and the only writes of the flag
    are [true] as the very first call and [false] as the very last one.
    The entry points keep the flag lowered as well, with or without a
    selected project and whatever the user answers. *)
Theorem loading_flag_reset_on_every_exit {Cache : Type}
    (env : Collaborators Cache) (op : Operation) (p : ProjectConfig)
    (w : World Cache) :
  projectLoading w = false ->
  fst (operation env op p w) = Normal tt /\
  projectLoading (snd (operation env op p w)) = false /\
  (exists mid,
     log (snd (operation env op p w)) =
       log w ++ EvSetProjectLoading true :: mid ++ [EvSetProjectLoading false] /\
     loadingWrites mid = []) /\
  projectLoading (snd (reloadCurrentProject env w)) = false /\
  (forall confirmed,
     projectLoading (snd (answeredForceRebuild env confirmed w)) = false).
Proof.
  intros Hw.
  assert (Hop : forall q w0,
            fst (operation env op q w0) = Normal tt /\
            projectLoading (snd (operation env op q w0)) = false /\
            exists mid,
              log (snd (operation env op q w0)) =
                log w0 ++ EvSetProjectLoading true :: mid
                       ++ [EvSetProjectLoading false] /\
              loadingWrites mid = []).
  { intros q w0.
    destruct (operation_run env op q w0) as (r & c & evs & Hpath & _ & Hrun).
    rewrite Hrun. repeat split.
    destruct (path_loading Hpath) as (rest & -> & Hrest).
    exists (rest ++ catchEvents env (errorLogMsg op) (failedMsg op) r).
    split.
    - cbn. now rewrite <- app_assoc.
    - now rewrite loadingWrites_app, Hrest, catchEvents_loading. }
  destruct (Hop p w) as (Hn & Hf & Hmid).
  repeat split; try assumption.
  - destruct (currentProject w) as [q |] eqn:Hq.
    + rewrite (reload_selected env Hq).
      destruct (operation_run env Reload q w) as (r & c & evs & _ & _ & Hrun).
      now rewrite Hrun.
    + now rewrite (reload_unselected env Hq).
  - intros confirmed. rewrite answered_unfold.
    apply answerModal_loading.
    destruct (forceRebuild_entry w) as (w1 & Hrun & Hl & _).
    now rewrite Hrun, <- Hw.
Qed.

Lemma loading_flag_reset_witness :
  projectLoading Demo.idle = false /\
  projectLoading (snd (operation Demo.envRateLimited Reload Demo.thesis Demo.idle))
  = false.
Proof.
  split; [reflexivity |].
  exact (proj1 (proj2 (loading_flag_reset_on_every_exit
                         Demo.envRateLimited Reload Demo.thesis Demo.idle eq_refl))).
Defined.

(* ================================================================== *)
(** ** What the calls do to the cache *)
(* ================================================================== *)

Section CacheEffects.
Context {Cache : Type}.
Variable env : Collaborators Cache.

(** The cache at the end of a path is the one the collaborators leave:
    the cache call applied to the initial cache, then the recompute call
    applied to its result. *)
Lemma path_cache_after (op : Operation) (p : ProjectConfig) (c0 c : Cache)
    (r : Completion unit) (evs : list Event) :
  TryPath env op p c0 r c evs ->
  c = cacheAfterOperation env op p c0.
Proof.
  intros Hpath. unfold cacheAfterOperation.
  path_cases Hpath; cbn [cacheCall];
    repeat match goal with
           | H : _ = _ |- _ => rewrite H
           end;
    reflexivity.
Qed.

(** From one cache an operation has one path. *)
Lemma path_functional (op : Operation) (p : ProjectConfig) (c0 c c' : Cache)
    (r r' : Completion unit) (evs evs' : list Event) :
  TryPath env op p c0 r c evs ->
  TryPath env op p c0 r' c' evs' ->
  r = r' /\ c = c' /\ evs = evs'.
Proof.
  intros H1 H2.
  path_cases H1; cbn [TryPath] in H2; inversion H2; subst;
    try congruence; repeat split; congruence.
Qed.

Lemma operation_cache_after (op : Operation) (p : ProjectConfig) (w : World Cache) :
  cache (snd (operation env op p w)) = cacheAfterOperation env op p (cache w).
Proof.
  destruct (operation_run env op p w) as (r & c & evs & Hpath & _ & Hrun).
  rewrite Hrun. cbn [snd cache leaves].
  exact (path_cache_after op p _ _ _ _ Hpath).
Qed.

(** An operation neither reads nor writes the project register: run
    from a world with another register, it does the same and leaves
    that register. *)
Lemma operation_withProject (op : Operation) (p : ProjectConfig)
    (selection : option ProjectConfig) (w : World Cache) :
  operation env op p (withProject selection w) =
    (Normal tt, withProject selection (snd (operation env op p w))).
Proof.
  destruct (operation_run env op p w) as (r & c & evs & Hpath & _ & Hrun).
  destruct (operation_run env op p (withProject selection w))
    as (r' & c' & evs' & Hpath' & _ & Hrun').
  cbn [cache withProject] in Hpath'.
  destruct (path_functional op p _ _ _ _ _ _ _ Hpath Hpath') as (<- & <- & <-).
  rewrite Hrun', Hrun. destruct op; reflexivity.
Qed.

End CacheEffects.

(* ================================================================== *)
(** ** Which cache call, and when *)
(* ================================================================== *)

(** Settles the observations of a log whose calls are all known. *)
Ltac settle_log env :=
  unfold catchEvents, failureNotices;
  repeat match goal with
         | |- context [isRateLimitError env ?e] => destruct (isRateLimitError env e)
         end;
  cbn; rewrite ?project_eqb_refl; cbn; auto.

(** C2.  With a project selected, [reloadCurrentProject] calls
    invalidate-markdown once, for that project and with the
    force-dependent-reload flag set, makes no recompute call before it
    and never calls clear-all.  [forceRebuildCurrentProjectContext],
    whatever the answer to its prompt, makes no recompute call before a
    clear-all of that project and never calls invalidate-markdown; when
    the prompt is confirmed it calls clear-all once.

    This holds of the calls themselves and not only of their log
    entries.  The cache that [reloadCurrentProject] leaves is the one
    obtained by applying invalidate-markdown (project, [true]) to the
    initial cache and then, when that fulfilled and the orchestrator is
    found, the recompute call for the project's id to the result; the
    cache a confirmed rebuild leaves is obtained in the same way from
    clear-all, and a dismissed one leaves the initial cache.  Replacing
    clear-all by any other function changes nothing in a run of
    [reloadCurrentProject], and replacing invalidate-markdown changes
    nothing in a run of the rebuild. *)
Theorem cache_call_precedes_recompute {Cache : Type}
    (env : Collaborators Cache) (p : ProjectConfig) (w : World Cache) :
  currentProject w = Some p ->
  (exists evs,
     log (snd (reloadCurrentProject env w)) = log w ++ evs /\
     existsb (isForcedInvalidateOf p) evs = true /\
     countEvents isInvalidateMarkdown evs = 1 /\
     onlyAfter (isForcedInvalidateOf p) isRecompute evs = true /\
     existsb isClearAll evs = false) /\
  cache (snd (reloadCurrentProject env w))
  = match invalidateMarkdownContext (contextCache env) p true (cache w) with
    | (Abrupt _, c1) => c1
    | (Normal _, c1) =>
        match lookupProjectManager env with
        | Some pm => snd (getProjectContext pm (id p) c1)
        | None => c1
        end
    end /\
  (forall clearAll,
     reloadCurrentProject (withClearForProject env clearAll) w
     = reloadCurrentProject env w) /\
  (forall confirmed,
   exists evs,
     log (snd (answeredForceRebuild env confirmed w)) = log w ++ evs /\
     existsb (isClearAllOf p) evs = confirmed /\
     countEvents isClearAll evs = (if confirmed then 1 else 0) /\
     onlyAfter (isClearAllOf p) isRecompute evs = true /\
     existsb isInvalidateMarkdown evs = false) /\
  (forall confirmed,
     cache (snd (answeredForceRebuild env confirmed w))
     = if confirmed
       then match clearForProject (contextCache env) p (cache w) with
            | (Abrupt _, c1) => c1
            | (Normal _, c1) =>
                match lookupProjectManager env with
                | Some pm => snd (getProjectContext pm (id p) c1)
                | None => c1
                end
            end
       else cache w) /\
  (forall invalidate confirmed,
     answeredForceRebuild (withInvalidateMarkdownContext env invalidate)
       confirmed w
     = answeredForceRebuild env confirmed w).
Proof.
  intros Hp.
  split; [| split; [| split; [| split; [| split]]]];
    [ | rewrite (reload_selected env Hp);
        exact (operation_cache_after env Reload p w)
      | intros clearAll; reflexivity
      |
      | intros confirmed; rewrite (answered_selected env confirmed p w Hp);
        destruct confirmed;
        [ exact (operation_cache_after env ForceRebuild p (prompted p w))
        | reflexivity ]
      | intros invalidate confirmed; reflexivity ].
  - rewrite (reload_selected env Hp).
    destruct (operation_run env Reload p w) as (r & c & evs & Hpath & _ & Hrun).
    rewrite Hrun; cbn [snd fst]; rewrite log_leaves. eexists; split; [reflexivity |].
    cbn [TryPath] in Hpath. inversion Hpath; subst; settle_log env.
  - intros confirmed. rewrite (answered_selected env confirmed p w Hp).
    destruct confirmed.
    + match goal with |- context [operation env ForceRebuild p ?w1] =>
        destruct (operation_run env ForceRebuild p w1)
          as (r & c & evs & Hpath & _ & Hrun)
      end.
      rewrite Hrun; cbn [snd fst]; rewrite log_leaves.
      unfold prompted, emit; cbn [log].
      rewrite <- !app_assoc. eexists; split; [reflexivity |].
      cbn [TryPath] in Hpath. inversion Hpath; subst; settle_log env.
    + exists [EvModalNew (rebuildModal p); EvModalOpen (rebuildModal p)].
      unfold prompted, emit; cbn [snd log]. rewrite <- app_assoc.
      repeat split.
Qed.

Lemma cache_call_precedes_recompute_witness :
  currentProject Demo.idle = Some Demo.thesis /\
  (exists evs,
     log (snd (reloadCurrentProject Demo.envFulfilled Demo.idle))
     = log Demo.idle ++ evs /\
     existsb (isForcedInvalidateOf Demo.thesis) evs = true /\
     countEvents isInvalidateMarkdown evs = 1 /\
     onlyAfter (isForcedInvalidateOf Demo.thesis) isRecompute evs = true /\
     existsb isClearAll evs = false) /\
  cache (snd (reloadCurrentProject Demo.envFulfilled Demo.idle))
  = [("p1", "markdown"); ("p2", "markdown")]%string.
Proof.
  split; [reflexivity |].
  split.
  - exact (proj1 (cache_call_precedes_recompute
                    Demo.envFulfilled Demo.thesis Demo.idle eq_refl)).
  - exact (proj1 (proj2 (cache_call_precedes_recompute
                           Demo.envFulfilled Demo.thesis Demo.idle eq_refl))).
Defined.

(* ================================================================== *)
(** ** Failures *)
(* ================================================================== *)

Section FailureFacts.
Context {Cache : Type}.
Variable env : Collaborators Cache.

(** An operation whose [try] block throws [e]: it still completes
    normally, and its log is the calls of the [try] block, then the
    error log entry, then the notification part of the [catch] block,
    then the lowering of the busy flag. *)
Lemma operation_failed (op : Operation) (p : ProjectConfig) (w : World Cache)
    (e : Thrown) :
  fst (tryBlock env op p w) = Abrupt e ->
  exists c evs,
    TryPath env op p (cache w) (Abrupt e) c evs /\
    operation env op p w =
      (Normal tt,
       leaves w false c (timerAfter op w)
         (evs ++ EvLogError (errorLogMsg op) e
              :: failureNotices env (failedMsg op) e
              ++ [EvSetProjectLoading false])).
Proof.
  intros Hfail.
  destruct (operation_run env op p w) as (r & c & evs & Hpath & Htry & Hrun).
  rewrite Htry in Hfail; cbn in Hfail; subst r.
  exists c, evs. split; [assumption | exact Hrun].
Qed.

End FailureFacts.

(** C3.  When the [try] block of Reload or of ForceRebuild throws an
    error that [isRateLimitError] classifies as a rate-limit error, the
    operation shows no generic failure notification and logs the error
    (once, with the operation's log message). *)
Theorem rate_limit_failure_is_only_logged {Cache : Type}
    (env : Collaborators Cache) (op : Operation) (p : ProjectConfig)
    (w : World Cache) (e : Thrown) :
  fst (tryBlock env op p w) = Abrupt e ->
  isRateLimitError env e = true ->
  exists evs,
    log (snd (operation env op p w)) = log w ++ evs /\
    countEvents isGenericFailureNotice evs = 0 /\
    countEvents isLogError evs = 1 /\
    In (EvLogError (errorLogMsg op) e) evs.
Proof.
  intros Hfail Hrate.
  destruct (operation_failed env op p w e Hfail) as (c & evs & Hpath & Hrun).
  rewrite Hrun; cbn [snd fst]; rewrite log_leaves. eexists; split; [reflexivity |].
  unfold failureNotices; rewrite Hrate.
  repeat split.
  - rewrite countEvents_app, (path_no_failure_notice Hpath). reflexivity.
  - rewrite countEvents_app, (path_no_log_error Hpath). reflexivity.
  - apply in_or_app; right; left; reflexivity.
Qed.

Lemma rate_limit_failure_is_only_logged_witness :
  exists evs,
    log (snd (operation Demo.envRateLimited ForceRebuild Demo.thesis Demo.idle))
    = log Demo.idle ++ evs /\
    countEvents isGenericFailureNotice evs = 0 /\
    countEvents isLogError evs = 1 /\
    In (EvLogError (errorLogMsg ForceRebuild) (NewError Demo.rateLimitMsg)) evs.
Proof.
  exact (rate_limit_failure_is_only_logged
           Demo.envRateLimited ForceRebuild Demo.thesis Demo.idle
           (NewError Demo.rateLimitMsg) eq_refl eq_refl).
Defined.

(** C4.  When the [try] block of Reload or of ForceRebuild throws, the
    error is logged once, and the generic failure notification is shown
    exactly once when [isRateLimitError] rejects the error and not at
    all when it accepts it: the generic notification never comes
    together with the case that is left to the rate-limit notice. *)
Theorem other_failure_is_notified_once {Cache : Type}
    (env : Collaborators Cache) (op : Operation) (p : ProjectConfig)
    (w : World Cache) (e : Thrown) :
  fst (tryBlock env op p w) = Abrupt e ->
  exists evs,
    log (snd (operation env op p w)) = log w ++ evs /\
    countEvents isLogError evs = 1 /\
    In (EvLogError (errorLogMsg op) e) evs /\
    countEvents isGenericFailureNotice evs
    = (if isRateLimitError env e then 0 else 1) /\
    (isRateLimitError env e = false -> In (EvNotice (failedMsg op) None) evs).
Proof.
  intros Hfail.
  destruct (operation_failed env op p w e Hfail) as (c & evs & Hpath & Hrun).
  rewrite Hrun; cbn [snd fst]; rewrite log_leaves. eexists; split; [reflexivity |].
  repeat split.
  - rewrite countEvents_app, (path_no_log_error Hpath).
    change (countEvents isLogError
              (EvLogError (errorLogMsg op) e
               :: failureNotices env (failedMsg op) e ++ [EvSetProjectLoading false]))
      with (S (countEvents isLogError
                 (failureNotices env (failedMsg op) e ++ [EvSetProjectLoading false]))).
    rewrite countEvents_app, failureNotices_kind by reflexivity. reflexivity.
  - apply in_or_app; right; left; reflexivity.
  - rewrite countEvents_app, (path_no_failure_notice Hpath).
    change (countEvents isGenericFailureNotice
              (EvLogError (errorLogMsg op) e
               :: failureNotices env (failedMsg op) e ++ [EvSetProjectLoading false]))
      with (countEvents isGenericFailureNotice
              (failureNotices env (failedMsg op) e ++ [EvSetProjectLoading false])).
    rewrite countEvents_app, failureNotices_count.
    destruct (isRateLimitError env e); reflexivity.
  - intros Hrate. apply in_or_app; right; right.
    unfold failureNotices; rewrite Hrate. left; reflexivity.
Qed.

Lemma other_failure_is_notified_once_witness :
  exists evs,
    log (snd (operation Demo.envOffline Reload Demo.thesis Demo.idle))
    = log Demo.idle ++ evs /\
    countEvents isLogError evs = 1 /\
    In (EvLogError (errorLogMsg Reload) (NewError "network unreachable")) evs /\
    countEvents isGenericFailureNotice evs = 1 /\
    (Demo.classify (NewError "network unreachable") = false ->
     In (EvNotice (failedMsg Reload) None) evs).
Proof.
  exact (other_failure_is_notified_once
           Demo.envOffline Reload Demo.thesis Demo.idle
           (NewError "network unreachable") eq_refl).
Defined.

(* ================================================================== *)
(** ** The confirmation prompt *)
(* ================================================================== *)

(** C5.  With a project selected, [forceRebuildCurrentProjectContext]
    only builds and opens the prompt: no destructive step (busy flag, timer reset,
    cache call, recompute) is taken, and the cache, the busy flag and
    the timer are as before.  They stay so when the prompt is dismissed.
    The destructive steps are taken when, and only when, the prompt is
    confirmed, and then after the prompt was opened, starting with the
    raising of the busy flag. *)
Theorem rebuild_waits_for_confirmation {Cache : Type}
    (env : Collaborators Cache) (p : ProjectConfig) (w : World Cache) :
  currentProject w = Some p ->
  (exists w1,
     forceRebuildCurrentProjectContext w = (Normal tt, w1) /\
     openModals w1 = rebuildModal p :: openModals w /\
     log w1 = log w ++ [EvModalNew (rebuildModal p); EvModalOpen (rebuildModal p)] /\
     cache w1 = cache w /\
     projectLoading w1 = projectLoading w /\
     lastRateLimitNoticeTime w1 = lastRateLimitNoticeTime w) /\
  (exists w2,
     answeredForceRebuild env false w = (Normal tt, w2) /\
     log w2 = log w ++ [EvModalNew (rebuildModal p); EvModalOpen (rebuildModal p)] /\
     cache w2 = cache w /\
     projectLoading w2 = projectLoading w /\
     lastRateLimitNoticeTime w2 = lastRateLimitNoticeTime w) /\
  (forall confirmed,
   exists evs,
     log (snd (answeredForceRebuild env confirmed w))
     = log w ++ EvModalNew (rebuildModal p) :: EvModalOpen (rebuildModal p) :: evs /\
     existsb isDestructiveStep evs = confirmed /\
     (confirmed = true -> exists rest, evs = EvSetProjectLoading true :: rest)).
Proof.
  intros Hp. split; [| split].
  - rewrite (forceRebuild_selected Hp). eexists; split; [reflexivity |].
    cbn. rewrite <- app_assoc. auto.
  - rewrite (answered_selected env false p w Hp).
    eexists; split; [reflexivity |]. cbn. rewrite <- app_assoc. auto.
  - intros confirmed. rewrite (answered_selected env confirmed p w Hp).
    destruct confirmed.
    + match goal with |- context [operation env ForceRebuild p ?w1] =>
        destruct (operation_run env ForceRebuild p w1)
          as (r & c & evs & Hpath & _ & Hrun)
      end.
      rewrite Hrun; cbn [snd fst]; rewrite log_leaves.
      unfold prompted, emit; cbn [log].
      rewrite <- !app_assoc. eexists; split; [reflexivity |].
      destruct (path_loading Hpath) as (rest & -> & _).
      split; [reflexivity |]. intros _. eexists; reflexivity.
    + exists []. unfold prompted, emit; cbn [snd log]. rewrite <- app_assoc.
      split; [reflexivity |]. split; [reflexivity |].
      intros H; discriminate H.
Qed.

Lemma rebuild_waits_for_confirmation_witness :
  currentProject Demo.idle = Some Demo.thesis /\
  exists w2,
    answeredForceRebuild Demo.envFulfilled false Demo.idle = (Normal tt, w2) /\
    log w2 = log Demo.idle
             ++ [EvModalNew (rebuildModal Demo.thesis);
                 EvModalOpen (rebuildModal Demo.thesis)] /\
    cache w2 = cache Demo.idle /\
    projectLoading w2 = projectLoading Demo.idle /\
    lastRateLimitNoticeTime w2 = lastRateLimitNoticeTime Demo.idle.
Proof.
  split; [reflexivity |].
  exact (proj1 (proj2 (rebuild_waits_for_confirmation
                         Demo.envFulfilled Demo.thesis Demo.idle eq_refl))).
Defined.

(* ================================================================== *)
(** ** No project selected *)
(* ================================================================== *)

(** C6.  With no project selected, [reloadCurrentProject] shows its one
    notice and returns: no cache call, no recompute, no write of the
    busy flag, and the busy flag and the cache are as before. *)
Theorem reload_without_project {Cache : Type}
    (env : Collaborators Cache) (w : World Cache) :
  currentProject w = None ->
  exists w1 evs,
    reloadCurrentProject env w = (Normal tt, w1) /\
    log w1 = log w ++ evs /\
    evs = [EvNotice noProjectToReloadMsg None] /\
    countEvents isNotice evs = 1 /\
    countEvents isCacheCall evs = 0 /\
    countEvents isRecompute evs = 0 /\
    loadingWrites evs = [] /\
    projectLoading w1 = projectLoading w /\
    cache w1 = cache w.
Proof.
  intros Hp. rewrite (reload_unselected env Hp).
  eexists. exists [EvNotice noProjectToReloadMsg None].
  split; [reflexivity |]. cbn. repeat split.
Qed.

Lemma reload_without_project_witness :
  currentProject Demo.nothingSelected = None /\
  exists w1 evs,
    reloadCurrentProject Demo.envFulfilled Demo.nothingSelected = (Normal tt, w1) /\
    log w1 = log Demo.nothingSelected ++ evs /\
    evs = [EvNotice noProjectToReloadMsg None] /\
    countEvents isNotice evs = 1 /\
    countEvents isCacheCall evs = 0 /\
    countEvents isRecompute evs = 0 /\
    loadingWrites evs = [] /\
    projectLoading w1 = projectLoading Demo.nothingSelected /\
    cache w1 = cache Demo.nothingSelected.
Proof.
  split; [reflexivity |].
  exact (reload_without_project Demo.envFulfilled Demo.nothingSelected eq_refl).
Defined.

(** C7.  With no project selected, [forceRebuildCurrentProjectContext]
    shows its one notice and returns: no modal is built or opened (the
    stack of open modals is as before and the log holds no opening), and
    nothing else changes. *)
Theorem rebuild_without_project {Cache : Type} (w : World Cache) :
  currentProject w = None ->
  exists w1 evs,
    forceRebuildCurrentProjectContext w = (Normal tt, w1) /\
    log w1 = log w ++ evs /\
    evs = [EvNotice noProjectToRebuildMsg None] /\
    countEvents isNotice evs = 1 /\
    countEvents isModalCall evs = 0 /\
    openModals w1 = openModals w /\
    projectLoading w1 = projectLoading w /\
    cache w1 = cache w.
Proof.
  intros Hp. rewrite (forceRebuild_unselected Hp).
  eexists. exists [EvNotice noProjectToRebuildMsg None].
  split; [reflexivity |]. cbn. repeat split.
Qed.

Lemma rebuild_without_project_witness :
  currentProject Demo.nothingSelected = None /\
  exists w1 evs,
    forceRebuildCurrentProjectContext Demo.nothingSelected = (Normal tt, w1) /\
    log w1 = log Demo.nothingSelected ++ evs /\
    evs = [EvNotice noProjectToRebuildMsg None] /\
    countEvents isNotice evs = 1 /\
    countEvents isModalCall evs = 0 /\
    openModals w1 = openModals Demo.nothingSelected /\
    projectLoading w1 = projectLoading Demo.nothingSelected /\
    cache w1 = cache Demo.nothingSelected.
Proof.
  split; [reflexivity |].
  exact (rebuild_without_project Demo.nothingSelected eq_refl).
Defined.

(* ================================================================== *)
(** ** The orchestrator cannot be located *)
(* ================================================================== *)

Section Unavailable.
Context {Cache : Type}.
Variable env : Collaborators Cache.

(** When the cache call fulfils and the lookup yields nothing, the
    [try] block throws the operation's own error after the calls made
    so far. *)
Lemma path_unavailable (op : Operation) (p : ProjectConfig) (c0 c1 c : Cache)
    (r : Completion unit) (evs : list Event) :
  cacheCall env op p c0 = (Normal tt, c1) ->
  lookupProjectManager env = None ->
  TryPath env op p c0 r c evs ->
  r = Abrupt (NewError (unavailableMsg op)) /\
  c = c1 /\
  evs = callsBeforeLookup op p.
Proof.
  intros Hcall Hlookup Hpath.
  path_cases Hpath; cbn [cacheCall] in Hcall; try congruence;
    repeat split; congruence.
Qed.

(** When the cache call fulfils and the lookup yields a manager, the
    [try] block ends as the recompute call ends, from the cache that
    the cache call left. *)
Lemma path_recompute (op : Operation) (p : ProjectConfig) (c0 c1 c : Cache)
    (pm : ProjectManager Cache) (r : Completion unit) (evs : list Event) :
  cacheCall env op p c0 = (Normal tt, c1) ->
  lookupProjectManager env = Some pm ->
  TryPath env op p c0 r c evs ->
  getProjectContext pm (id p) c1 = (r, c).
Proof.
  intros Hcall Hlookup Hpath.
  path_cases Hpath; cbn [cacheCall] in Hcall; congruence.
Qed.

End Unavailable.



(* ================================================================== *)
(** ** After a failure *)
(* ================================================================== *)

(** C9.  When the cache call of Reload (invalidate-markdown) or of
    ForceRebuild (clear-all) has fulfilled and the [try] block then
    throws, the operation logs the failure and completes, and the cache
    is what the cache call left (followed by whatever the recompute call
    did to it, when that call was reached): the operation makes no second
    cache call, so a cache that the call changed stays changed. *)
Theorem failed_operation_keeps_cache_mutation {Cache : Type}
    (env : Collaborators Cache) (op : Operation) (p : ProjectConfig)
    (w : World Cache) (c1 : Cache) (e : Thrown) :
  cacheCall env op p (cache w) = (Normal tt, c1) ->
  fst (tryBlock env op p w) = Abrupt e ->
  fst (operation env op p w) = Normal tt /\
  (lookupProjectManager env = None ->
   cache (snd (operation env op p w)) = c1) /\
  (forall pm,
     lookupProjectManager env = Some pm ->
     cache (snd (operation env op p w)) = snd (getProjectContext pm (id p) c1)) /\
  (exists evs,
     log (snd (operation env op p w)) = log w ++ evs /\
     countEvents isCacheCall evs = 1 /\
     In (EvLogError (errorLogMsg op) e) evs) /\
  (c1 <> cache w ->
   lookupProjectManager env = None ->
   cache (snd (operation env op p w)) <> cache w).
Proof.
  intros Hcall Hfail.
  destruct (operation_failed env op p w e Hfail) as (c & evs & Hpath & Hrun).
  rewrite Hrun; cbn [snd fst]; rewrite log_leaves.
  assert (Hnone : lookupProjectManager env = None -> c = c1).
  { intros Hlookup.
    now destruct (path_unavailable env op p _ _ _ _ _ Hcall Hlookup Hpath)
      as (_ & -> & _). }
  repeat split.
  - exact Hnone.
  - intros pm Hlookup.
    now rewrite (path_recompute env op p _ _ _ pm _ _ Hcall Hlookup Hpath).
  - eexists; split; [reflexivity |]. split.
    + rewrite countEvents_app, (path_one_cache_call Hpath).
      change (countEvents isCacheCall
                (EvLogError (errorLogMsg op) e
                 :: failureNotices env (failedMsg op) e ++ [EvSetProjectLoading false]))
        with (countEvents isCacheCall
                (failureNotices env (failedMsg op) e ++ [EvSetProjectLoading false])).
      rewrite countEvents_app, failureNotices_kind by reflexivity. reflexivity.
    + apply in_or_app; right; left; reflexivity.
  - intros Hchanged Hlookup. cbn [cache leaves]. now rewrite (Hnone Hlookup).
Qed.

Lemma failed_operation_keeps_cache_mutation_witness :
  cache (snd (operation Demo.envNoPlugin ForceRebuild Demo.thesis Demo.idle))
  <> cache Demo.idle.
Proof.
  apply (failed_operation_keeps_cache_mutation
           Demo.envNoPlugin ForceRebuild Demo.thesis Demo.idle
           [("p2", "markdown")%string]
           (NewError (unavailableMsg ForceRebuild)) eq_refl eq_refl).
  - discriminate.
  - reflexivity.
Defined.

(** C10.  In a confirmed ForceRebuild whose clear-all call fulfils and
    whose second step (the orchestrator lookup and the recompute call)
    then throws, the in-progress notice of ten seconds and the
    cache-cleared notice have been shown before the error is logged and
    classified; after that comes the generic failure notification or
    nothing.  The operation thus shows these two notices and at most one
    generic failure notification. *)
Theorem failed_rebuild_has_shown_two_notices {Cache : Type}
    (env : Collaborators Cache) (p : ProjectConfig) (w : World Cache)
    (c1 : Cache) (e : Thrown) :
  clearForProject (contextCache env) p (cache w) = (Normal tt, c1) ->
  fst (forceRebuildTry env p w) = Abrupt e ->
  exists pre post,
    log (snd (forceRebuildConfirmed env p w))
    = log w ++ pre ++ EvLogError rebuildErrorLogMsg e :: post /\
    filter isNotice pre
    = [EvNotice (rebuildingMsg p) (Some 10000%Z);
       EvNotice (cacheClearedMsg p) None] /\
    filter isNotice post = failureNotices env rebuildFailedMsg e /\
    countEvents isGenericFailureNotice pre = 0 /\
    countEvents isGenericFailureNotice post <= 1 /\
    countEvents isNotice (pre ++ EvLogError rebuildErrorLogMsg e :: post)
    = 2 + countEvents isGenericFailureNotice
            (pre ++ EvLogError rebuildErrorLogMsg e :: post).
Proof.
  intros Hclear Hfail.
  destruct (operation_failed env ForceRebuild p w e Hfail)
    as (c & evs & Hpath & Hrun).
  cbn [operation timerAfter errorLogMsg failedMsg] in Hrun.
  rewrite Hrun; cbn [snd fst]; rewrite log_leaves.
  exists evs, (failureNotices env rebuildFailedMsg e ++ [EvSetProjectLoading false]).
  split; [reflexivity |].
  cbn [TryPath] in Hpath. inversion Hpath; subst; try congruence;
    unfold failureNotices;
    match goal with
    | |- context [isRateLimitError env ?x] => destruct (isRateLimitError env x)
    end;
    repeat split; try reflexivity; vm_compute; lia.
Qed.

Lemma failed_rebuild_has_shown_two_notices_witness :
  exists pre post,
    log (snd (forceRebuildConfirmed Demo.envOffline Demo.thesis Demo.idle))
    = log Demo.idle ++ pre
      ++ EvLogError rebuildErrorLogMsg (NewError "network unreachable") :: post /\
    filter isNotice pre
    = [EvNotice (rebuildingMsg Demo.thesis) (Some 10000%Z);
       EvNotice (cacheClearedMsg Demo.thesis) None] /\
    filter isNotice post
    = failureNotices Demo.envOffline rebuildFailedMsg
        (NewError "network unreachable") /\
    countEvents isGenericFailureNotice pre = 0 /\
    countEvents isGenericFailureNotice post <= 1 /\
    countEvents isNotice
      (pre ++ EvLogError rebuildErrorLogMsg (NewError "network unreachable") :: post)
    = 2 + countEvents isGenericFailureNotice
            (pre ++ EvLogError rebuildErrorLogMsg (NewError "network unreachable")
                 :: post).
Proof.
  exact (failed_rebuild_has_shown_two_notices
           Demo.envOffline Demo.thesis Demo.idle
           [("p2", "markdown")%string] (NewError "network unreachable")
           eq_refl eq_refl).
Defined.

(* ================================================================== *)
(** ** The vault index actions: every outcome is reported *)
(* ================================================================== *)

(** An index action, given how its index call settles. *)
Lemma indexAction_run {Store : Type} (manager : VectorStoreManager Store)
    (a : IndexAction) (w : IndexWorld Store) (r : Completion unit) (s : Store) :
  indexVaultToVectorStore manager (overwriteArgument a) (vectorStore w) = (r, s) ->
  indexAction manager a w =
    (Normal tt,
     mkIndexWorld s
       (indexLog w
        ++ IxIndexVaultToVectorStore (overwriteArgument a) :: indexReport a r)).
Proof.
  intros Hcall.
  destruct a; cbn [overwriteArgument] in Hcall;
    cbv beta iota delta
      [indexAction refreshVaultIndex forceReindexVault try_catch bind Monad_Ix
       Ix_bind awaitIndexVault];
    rewrite Hcall; destruct r as [[] | e];
    unfold ixNotice, consoleError, ixEmit; cbn;
    repeat rewrite <- app_assoc; reflexivity.
Qed.

(** A refresh that succeeds, and a forced reindex that fails. *)
Example refresh_fulfilled_run :
  refreshVaultIndex (DemoIndex.manager None) DemoIndex.stale =
    (Normal tt,
     mkIndexWorld ["note.md"; "old.md"]%string
       [IxIndexVaultToVectorStore None; IxNotice vaultRefreshedMsg None]).
Proof. reflexivity. Qed.

Example reindex_rejected_run :
  forceReindexVault (DemoIndex.manager (Some (NewError Demo.rateLimitMsg)))
                    DemoIndex.stale =
    (Normal tt,
     mkIndexWorld ["old.md"]%string
       [IxIndexVaultToVectorStore (Some true);
        IxConsoleError reindexErrorLogMsg (NewError Demo.rateLimitMsg);
        IxNotice reindexFailedMsg None]).
Proof. reflexivity. Qed.

(** X1.  [refreshVaultIndex] and [forceReindexVault] never reject.  Each
    makes exactly one index call, first of all (without an argument for
    the refresh, with [true] for the forced reindex), and leaves the
    vector store as that call left it, also when the call rejected.
    After the call each shows exactly one notice: the success notice
    when the call fulfilled; when it rejected, whatever the error, the
    failure notice, after one [console.error] with that error. *)
Theorem vault_index_reports_every_outcome {Store : Type}
    (manager : VectorStoreManager Store) (a : IndexAction) (w : IndexWorld Store) :
  fst (indexAction manager a w) = Normal tt /\
  vectorStore (snd (indexAction manager a w))
  = snd (indexVaultToVectorStore manager (overwriteArgument a) (vectorStore w)) /\
  exists evs,
    indexLog (snd (indexAction manager a w))
    = indexLog w ++ IxIndexVaultToVectorStore (overwriteArgument a) :: evs /\
    evs = indexReport a
            (fst (indexVaultToVectorStore manager (overwriteArgument a)
                    (vectorStore w))) /\
    countIx isIxIndexCall evs = 0 /\
    countIx isIxNotice evs = 1 /\
    countIx isIxConsoleError evs
    = match fst (indexVaultToVectorStore manager (overwriteArgument a)
                   (vectorStore w)) with
      | Normal _ => 0
      | Abrupt _ => 1
      end.
Proof.
  destruct (indexVaultToVectorStore manager (overwriteArgument a) (vectorStore w))
    as [r s] eqn:Hcall.
  rewrite (indexAction_run manager a w r s Hcall). cbn [fst snd vectorStore indexLog].
  repeat split.
  eexists; split; [reflexivity |]. split; [reflexivity |].
  destruct r as [u | e]; repeat split.
Qed.

(* ================================================================== *)
(** ** More on the two operations *)
(* ================================================================== *)

Section MorePaths.
Context {Cache : Type}.
Variable env : Collaborators Cache.

(** When the cache call rejects, the [try] block ends there. *)
Lemma path_cache_rejected (op : Operation) (p : ProjectConfig) (c0 c1 c : Cache)
    (e : Thrown) (r : Completion unit) (evs : list Event) :
  cacheCall env op p c0 = (Abrupt e, c1) ->
  TryPath env op p c0 r c evs ->
  r = Abrupt e /\ c = c1 /\ evs = callsUntilCacheCall op p.
Proof.
  intros Hcall Hpath.
  path_cases Hpath; cbn [cacheCall] in Hcall; try congruence;
    repeat split; congruence.
Qed.

(** When the cache call fulfils, the manager is found and the recompute
    call fulfils, the [try] block runs to its success notice. *)
Lemma path_fulfilled (op : Operation) (p : ProjectConfig) (c0 c1 c2 c : Cache)
    (pm : ProjectManager Cache) (r : Completion unit) (evs : list Event) :
  cacheCall env op p c0 = (Normal tt, c1) ->
  lookupProjectManager env = Some pm ->
  getProjectContext pm (id p) c1 = (Normal tt, c2) ->
  TryPath env op p c0 r c evs ->
  r = Normal tt /\ c = c2 /\
  evs = callsBeforeLookup op p
        ++ [EvGetProjectContext (id p); EvNotice (successMsg op p) None].
Proof.
  intros Hcall Hlookup Hctx Hpath.
  path_cases Hpath; cbn [cacheCall] in Hcall; try congruence;
    repeat split; congruence.
Qed.

(** Every path of ForceRebuild resets the timer once, before its
    clear-all call; no path of Reload resets it. *)
Lemma path_timer_resets (op : Operation) (p : ProjectConfig) (c0 c : Cache)
    (r : Completion unit) (evs : list Event) :
  TryPath env op p c0 r c evs ->
  countEvents isTimerReset evs
  = match op with Reload => 0 | ForceRebuild => 1 end /\
  onlyAfter isTimerReset isCacheCall evs
  = match op with Reload => false | ForceRebuild => true end.
Proof. intros Hpath. path_cases Hpath; split; reflexivity. Qed.

(** Every cache call and every recompute call of a path is for the
    project the operation was started with. *)
Lemma path_same_project (op : Operation) (p : ProjectConfig) (c0 c : Cache)
    (r : Completion unit) (evs : list Event) :
  TryPath env op p c0 r c evs ->
  countEvents (isClearAllOfOther p) evs = 0 /\
  countEvents (isRecomputeOfOther (id p)) evs = 0 /\
  (op = ForceRebuild ->
   existsb (isClearAllOf p) evs = true /\
   In (EvNotice (rebuildingMsg p) (Some 10000%Z)) evs).
Proof.
  intros Hpath.
  path_cases Hpath; unfold countEvents; cbn;
    rewrite ?project_eqb_refl, ?String.eqb_refl; cbn;
    repeat split; try discriminate; auto.
Qed.

End MorePaths.

(** X2.  When the cache call, the orchestrator lookup and the recompute
    call all succeed, Reload and ForceRebuild log no error and show no
    failure notice; the last notice is the success notice naming the
    project, the recompute call is made once, for the project's id and
    on the cache that the cache call left, and the cache is left as the
    recompute call left it. *)
Theorem fulfilled_operation_reports_success {Cache : Type}
    (env : Collaborators Cache) (op : Operation) (p : ProjectConfig)
    (w : World Cache) (c1 c2 : Cache) (pm : ProjectManager Cache) :
  cacheCall env op p (cache w) = (Normal tt, c1) ->
  lookupProjectManager env = Some pm ->
  getProjectContext pm (id p) c1 = (Normal tt, c2) ->
  exists evs,
    operation env op p w
    = (Normal tt, leaves w false c2 (timerAfter op w) evs) /\
    evs = callsBeforeLookup op p
          ++ [EvGetProjectContext (id p);
              EvNotice (successMsg op p) None;
              EvSetProjectLoading false] /\
    countEvents isLogError evs = 0 /\
    countEvents isGenericFailureNotice evs = 0 /\
    countEvents isRecompute evs = 1 /\
    countEvents isNotice evs = match op with Reload => 1 | ForceRebuild => 3 end.
Proof.
  intros Hcall Hlookup Hctx.
  destruct (operation_run env op p w) as (r & c & evs & Hpath & _ & Hrun).
  destruct (path_fulfilled env op p _ _ _ _ pm _ _ Hcall Hlookup Hctx Hpath)
    as (-> & -> & ->).
  eexists; split; [rewrite Hrun; cbn [catchEvents]; rewrite <- app_assoc;
                   reflexivity |].
  split; [reflexivity |].
  destruct op; repeat split.
Qed.

Lemma fulfilled_operation_reports_success_witness :
  exists evs,
    operation Demo.envFulfilled ForceRebuild Demo.thesis Demo.idle
    = (Normal tt,
       leaves Demo.idle false
         [("p1", "markdown"); ("p2", "markdown")]%string
         (timerAfter ForceRebuild Demo.idle) evs) /\
    evs = callsBeforeLookup ForceRebuild Demo.thesis
          ++ [EvGetProjectContext (id Demo.thesis);
              EvNotice (successMsg ForceRebuild Demo.thesis) None;
              EvSetProjectLoading false] /\
    countEvents isLogError evs = 0 /\
    countEvents isGenericFailureNotice evs = 0 /\
    countEvents isRecompute evs = 1 /\
    countEvents isNotice evs = 3.
Proof.
  exact (fulfilled_operation_reports_success
           Demo.envFulfilled ForceRebuild Demo.thesis Demo.idle
           [("p2", "markdown")%string]
           [("p1", "markdown"); ("p2", "markdown")]%string
           (Demo.manager None) eq_refl eq_refl eq_refl).
Defined.

(** X3.  When the cache call of Reload or of ForceRebuild rejects, the
    operation goes straight to its [catch] block: the orchestrator is
    not asked to recompute, neither the cache-cleared notice nor the
    success notice is shown, the rejection is logged, and the cache is
    left as the rejected call left it. *)
Theorem rejected_cache_call_ends_operation {Cache : Type}
    (env : Collaborators Cache) (op : Operation) (p : ProjectConfig)
    (w : World Cache) (e : Thrown) (c1 : Cache) :
  cacheCall env op p (cache w) = (Abrupt e, c1) ->
  exists evs,
    operation env op p w
    = (Normal tt, leaves w false c1 (timerAfter op w) evs) /\
    evs = callsUntilCacheCall op p
          ++ EvLogError (errorLogMsg op) e
             :: failureNotices env (failedMsg op) e
             ++ [EvSetProjectLoading false] /\
    countEvents isRecompute evs = 0 /\
    countEvents (isNoticeOf (cacheClearedMsg p)) evs = 0 /\
    countEvents (isNoticeOf (successMsg op p)) evs = 0.
Proof.
  intros Hcall.
  destruct (operation_run env op p w) as (r & c & evs & Hpath & _ & Hrun).
  destruct (path_cache_rejected env op p _ _ _ e _ _ Hcall Hpath)
    as (-> & -> & ->).
  eexists; split; [rewrite Hrun; cbn [catchEvents]; reflexivity |].
  split; [reflexivity |].
  unfold failureNotices.
  destruct op; destruct (isRateLimitError env e); repeat split.
Qed.

Lemma rejected_cache_call_ends_operation_witness :
  exists evs,
    operation DemoFailures.envDiskFull ForceRebuild Demo.thesis Demo.idle
    = (Normal tt,
       leaves Demo.idle false (cache Demo.idle)
         (timerAfter ForceRebuild Demo.idle) evs) /\
    evs = callsUntilCacheCall ForceRebuild Demo.thesis
          ++ EvLogError (errorLogMsg ForceRebuild) (NewError "disk full")
             :: failureNotices DemoFailures.envDiskFull
                  (failedMsg ForceRebuild) (NewError "disk full")
             ++ [EvSetProjectLoading false] /\
    countEvents isRecompute evs = 0 /\
    countEvents (isNoticeOf (cacheClearedMsg Demo.thesis)) evs = 0 /\
    countEvents (isNoticeOf (successMsg ForceRebuild Demo.thesis)) evs = 0.
Proof.
  exact (rejected_cache_call_ends_operation
           DemoFailures.envDiskFull ForceRebuild Demo.thesis Demo.idle
           (NewError "disk full") (cache Demo.idle) eq_refl).
Defined.

(** X4.  Reload never resets the rate-limit notice timer: the time of
    the last notice is after the operation what it was before.
    ForceRebuild resets it exactly once on every path, before its
    clear-all call, so the time is zero afterwards even when clear-all
    rejects.  Neither operation writes the project register or touches
    the open modals. *)
Theorem only_force_rebuild_resets_timer {Cache : Type}
    (env : Collaborators Cache) (op : Operation) (p : ProjectConfig)
    (w : World Cache) :
  lastRateLimitNoticeTime (snd (operation env op p w))
  = match op with
    | Reload => lastRateLimitNoticeTime w
    | ForceRebuild => 0%Z
    end /\
  currentProject (snd (operation env op p w)) = currentProject w /\
  openModals (snd (operation env op p w)) = openModals w /\
  exists evs,
    log (snd (operation env op p w)) = log w ++ evs /\
    countEvents isTimerReset evs
    = match op with Reload => 0 | ForceRebuild => 1 end /\
    onlyAfter isTimerReset isCacheCall evs
    = match op with Reload => false | ForceRebuild => true end.
Proof.
  destruct (operation_run env op p w) as (r & c & evs & Hpath & _ & Hrun).
  rewrite Hrun; cbn [snd fst]; rewrite log_leaves.
  split; [destruct op; reflexivity |]. split; [reflexivity |].
  split; [reflexivity |].
  eexists; split; [reflexivity |].
  destruct (path_timer_resets env op p _ _ _ _ Hpath) as (Hcount & Horder).
  destruct (path_loading Hpath) as (rest & -> & _).
  split.
  - rewrite countEvents_app, Hcount.
    assert (Hcatch : countEvents isTimerReset
                       (catchEvents env (errorLogMsg op) (failedMsg op) r
                        ++ [EvSetProjectLoading false]) = 0).
    { rewrite countEvents_app. destruct r as [u | e]; cbn [catchEvents].
      - reflexivity.
      - change (countEvents isTimerReset
                  (EvLogError (errorLogMsg op) e
                   :: failureNotices env (failedMsg op) e))
          with (countEvents isTimerReset (failureNotices env (failedMsg op) e)).
        now rewrite failureNotices_kind by reflexivity. }
    rewrite Hcatch. destruct op; reflexivity.
  - destruct op; cbn [TryPath] in Hpath; inversion Hpath; subst; reflexivity.
Qed.

(* ================================================================== *)
(** ** The project of a rebuild is the one of its prompt *)
(* ================================================================== *)

Section Selection.
Context {Cache : Type}.
Variable env : Collaborators Cache.

(** With [p] selected, a prompt confirmed after the register was set to
    [selection] runs ForceRebuild for [p], in a world whose register
    holds [selection]. *)
Lemma confirmedAfterSelecting_run (p : ProjectConfig)
    (selection : option ProjectConfig) (w : World Cache) :
  currentProject w = Some p ->
  confirmedAfterSelecting env selection w =
    operation env ForceRebuild p (withProject selection (prompted p w)).
Proof.
  intros Hp. unfold confirmedAfterSelecting.
  cbv beta iota delta [bind Monad_Js Js_bind].
  rewrite (forceRebuild_selected Hp). reflexivity.
Qed.

End Selection.

(** X5.  The callback of the confirmation prompt works on the project
    that was selected when [forceRebuildCurrentProjectContext] was
    called.  When the register is set to something else (another project
    or none) while the prompt is open and the prompt is then confirmed,
    the in-progress notice names the original project, clear-all is
    called for it, no clear-all and no recompute call is made for any
    other project, and the register keeps its new content.

    This holds of the calls themselves and not only of their log
    entries: the cache left behind is the one obtained by applying
    clear-all of the original project to the initial cache and then,
    when that fulfilled and the orchestrator is found, the recompute
    call for the original project's id to the result; and the whole run
    is the run of a prompt confirmed without any change of the register,
    but for the register itself. *)
Theorem rebuild_uses_project_of_prompt {Cache : Type}
    (env : Collaborators Cache) (p : ProjectConfig)
    (selection : option ProjectConfig) (w : World Cache) :
  currentProject w = Some p ->
  fst (confirmedAfterSelecting env selection w) = Normal tt /\
  currentProject (snd (confirmedAfterSelecting env selection w)) = selection /\
  cache (snd (confirmedAfterSelecting env selection w))
  = match clearForProject (contextCache env) p (cache w) with
    | (Abrupt _, c1) => c1
    | (Normal _, c1) =>
        match lookupProjectManager env with
        | Some pm => snd (getProjectContext pm (id p) c1)
        | None => c1
        end
    end /\
  confirmedAfterSelecting env selection w
  = (Normal tt, withProject selection (snd (answeredForceRebuild env true w))) /\
  exists evs,
    log (snd (confirmedAfterSelecting env selection w))
    = log w ++ EvModalNew (rebuildModal p) :: EvModalOpen (rebuildModal p) :: evs /\
    In (EvNotice (rebuildingMsg p) (Some 10000%Z)) evs /\
    existsb (isClearAllOf p) evs = true /\
    countEvents (isClearAllOfOther p) evs = 0 /\
    countEvents (isRecomputeOfOther (id p)) evs = 0.
Proof.
  intros Hp.
  assert (Hcache :
            cache (snd (confirmedAfterSelecting env selection w))
            = cacheAfterOperation env ForceRebuild p (cache w)).
  { rewrite (confirmedAfterSelecting_run env p selection w Hp).
    exact (operation_cache_after env ForceRebuild p
             (withProject selection (prompted p w))). }
  assert (Hsame :
            confirmedAfterSelecting env selection w
            = (Normal tt,
               withProject selection (snd (answeredForceRebuild env true w)))).
  { rewrite (confirmedAfterSelecting_run env p selection w Hp),
            (answered_selected env true p w Hp).
    exact (operation_withProject env ForceRebuild p selection (prompted p w)). }
  split; [rewrite Hsame; reflexivity |].
  split; [rewrite Hsame; reflexivity |].
  split; [exact Hcache |].
  split; [exact Hsame |].
  clear Hcache Hsame.
  rewrite (confirmedAfterSelecting_run env p selection w Hp).
  match goal with |- context [operation env ForceRebuild p ?w1] =>
    destruct (operation_run env ForceRebuild p w1)
      as (r & c & evs & Hpath & _ & Hrun)
  end.
  rewrite Hrun; cbn [snd fst]; rewrite log_leaves.
  unfold withProject, prompted, emit; cbn [log].
  rewrite <- !app_assoc. eexists; split; [reflexivity |].
  destruct (path_same_project env ForceRebuild p _ _ _ _ Hpath)
    as (Hclear & Hctx & Hown).
  destruct (Hown eq_refl) as (Hcalled & Hnamed).
  assert (Hcatch : forall kind,
            (forall m d, kind (EvNotice m d) = false) ->
            (forall m x, kind (EvLogError m x) = false) ->
            kind (EvSetProjectLoading false) = false ->
            countEvents kind
              (catchEvents env (errorLogMsg ForceRebuild) (failedMsg ForceRebuild) r
               ++ [EvSetProjectLoading false]) = 0).
  { intros kind Hn Hl Hs. rewrite countEvents_app.
    unfold countEvents at 2; cbn [filter]; rewrite Hs.
    destruct r as [u | e]; cbn [catchEvents]; [reflexivity |].
    unfold countEvents at 1; cbn [filter]; rewrite Hl.
    fold (countEvents kind (failureNotices env (failedMsg ForceRebuild) e)).
    now rewrite (failureNotices_kind env kind _ e Hn). }
  repeat split.
  - apply in_or_app; left; exact Hnamed.
  - rewrite existsb_app, Hcalled. reflexivity.
  - rewrite countEvents_app, Hclear, Hcatch by reflexivity. reflexivity.
  - rewrite countEvents_app, Hctx, Hcatch by reflexivity. reflexivity.
Qed.

Lemma rebuild_uses_project_of_prompt_witness :
  currentProject Demo.idle = Some Demo.thesis /\
  currentProject
    (snd (confirmedAfterSelecting Demo.envFulfilled
            (Some DemoMode.otherProject) Demo.idle))
  = Some DemoMode.otherProject /\
  cache (snd (confirmedAfterSelecting Demo.envFulfilled
                (Some DemoMode.otherProject) Demo.idle))
  = [("p1", "markdown"); ("p2", "markdown")]%string /\
  confirmedAfterSelecting Demo.envFulfilled
    (Some DemoMode.otherProject) Demo.idle
  = (Normal tt,
     withProject (Some DemoMode.otherProject)
       (snd (answeredForceRebuild Demo.envFulfilled true Demo.idle))).
Proof.
  split; [reflexivity |].
  pose proof (rebuild_uses_project_of_prompt
                Demo.envFulfilled Demo.thesis
                (Some DemoMode.otherProject) Demo.idle eq_refl)
    as (_ & Hregister & Hcache & Hsame & _).
  split; [exact Hregister |]. split; [exact Hcache | exact Hsame].
Defined.

Example rebuild_after_reselection_run :
  log (snd (confirmedAfterSelecting Demo.envFulfilled
              (Some DemoMode.otherProject) Demo.idle)) =
    [EvModalNew (rebuildModal Demo.thesis);
     EvModalOpen (rebuildModal Demo.thesis);
     EvSetProjectLoading true;
     EvNotice (rebuildingMsg Demo.thesis) (Some 10000%Z);
     EvResetRateLimitNoticeTimer;
     EvClearForProject Demo.thesis;
     EvNotice (cacheClearedMsg Demo.thesis) None;
     EvGetProjectContext "p1";
     EvNotice (rebuiltMsg Demo.thesis) None;
     EvSetProjectLoading false].
Proof. reflexivity. Qed.

(* ================================================================== *)
(** ** The mode switch *)
(* ================================================================== *)

Section ModeSwitchFacts.
Context {Cache Chain : Type}.
Variable PROJECT_CHAIN : Chain.
Variable chain_eq_dec : forall a b : Chain, {a = b} + {a <> b}.
Variable setSelectedChain : Chain -> Js Cache unit.
Variable props : ChatControlsProps Cache Chain.

Lemma strictNotEqual_true (a b : Chain) :
  a <> b -> strictNotEqual chain_eq_dec a b = true.
Proof.
  intros Hneq. unfold strictNotEqual.
  destruct (chain_eq_dec a b); [contradiction | reflexivity].
Qed.

Lemma strictNotEqual_same (a : Chain) : strictNotEqual chain_eq_dec a a = false.
Proof.
  unfold strictNotEqual.
  destruct (chain_eq_dec a a); [reflexivity | contradiction].
Qed.

(** [handleModeChange] once the setter and [onModeChange] have run. *)
Lemma handleModeChange_after_handlers (chainType : Chain) (w w1 w2 : World Cache)
    (r : Completion unit) :
  setSelectedChain chainType w = (Normal tt, w1) ->
  onModeChange props chainType w1 = (r, w2) ->
  handleModeChange PROJECT_CHAIN chain_eq_dec setSelectedChain props chainType w =
    match r with
    | Abrupt e => (Abrupt e, w2)
    | Normal _ =>
        if strictNotEqual chain_eq_dec chainType PROJECT_CHAIN
        then callOnCloseProject props (withProject None w2)
        else (Normal tt, w2)
    end.
Proof.
  intros Hset Hmode.
  cbv beta iota delta [handleModeChange bind Monad_Js Js_bind].
  rewrite Hset, Hmode. destruct r as [[] | e]; [| reflexivity].
  destruct (strictNotEqual chain_eq_dec chainType PROJECT_CHAIN); reflexivity.
Qed.

End ModeSwitchFacts.

(** X6.  A switch to a chain type other than the project chain, with a
    setter and an [onModeChange] handler that complete normally, empties
    the project register before [onCloseProject] runs (the handler, when
    there is one, starts from a world without a selected project; when
    there is none, that world is the result).  In that world
    [reloadCurrentProject] and [forceRebuildCurrentProjectContext] only
    show their no-project notice: no cache call, no write of the busy
    flag, no prompt. *)
Theorem leaving_project_mode_clears_selection {Cache Chain : Type}
    (PROJECT_CHAIN : Chain)
    (chain_eq_dec : forall a b : Chain, {a = b} + {a <> b})
    (setSelectedChain : Chain -> Js Cache unit)
    (props : ChatControlsProps Cache Chain)
    (env : Collaborators Cache)
    (chainType : Chain) (w w1 w2 : World Cache) :
  chainType <> PROJECT_CHAIN ->
  setSelectedChain chainType w = (Normal tt, w1) ->
  onModeChange props chainType w1 = (Normal tt, w2) ->
  handleModeChange PROJECT_CHAIN chain_eq_dec setSelectedChain props chainType w
  = match onCloseProject props with
    | Some handler => handler (withProject None w2)
    | None => (Normal tt, withProject None w2)
    end /\
  currentProject (withProject None w2) = None /\
  reloadCurrentProject env (withProject None w2)
  = (Normal tt,
     leaves (withProject None w2) (projectLoading w2) (cache w2)
       (lastRateLimitNoticeTime w2) [EvNotice noProjectToReloadMsg None]) /\
  forceRebuildCurrentProjectContext (withProject None w2)
  = (Normal tt,
     leaves (withProject None w2) (projectLoading w2) (cache w2)
       (lastRateLimitNoticeTime w2) [EvNotice noProjectToRebuildMsg None]).
Proof.
  intros Hneq Hset Hmode.
  rewrite (handleModeChange_after_handlers PROJECT_CHAIN chain_eq_dec
             setSelectedChain props chainType w w1 w2 _ Hset Hmode).
  rewrite (strictNotEqual_true chain_eq_dec _ _ Hneq).
  split; [unfold callOnCloseProject; destruct (onCloseProject props); reflexivity |].
  split; [reflexivity |].
  split.
  - exact (reload_unselected env (w := withProject None w2) eq_refl).
  - exact (forceRebuild_unselected (w := withProject None w2) eq_refl).
Qed.

Lemma leaving_project_mode_clears_selection_witness :
  handleModeChange DemoMode.PROJECT_CHAIN string_dec DemoMode.setSelectedChain
    DemoMode.quietProps "vault_qa" Demo.idle
  = (Normal tt, withProject None Demo.idle).
Proof.
  refine (proj1 (leaving_project_mode_clears_selection
                   DemoMode.PROJECT_CHAIN string_dec DemoMode.setSelectedChain
                   DemoMode.quietProps Demo.envFulfilled "vault_qa"
                   Demo.idle Demo.idle Demo.idle _ eq_refl eq_refl)).
  discriminate.
Defined.

(** X7.  [handleModeChange] leaves the selected project alone in two
    cases: on a switch to the project chain, and when [onModeChange]
    throws.  In both the result is exactly what [onModeChange] returned:
    the register is not emptied, [onCloseProject] is not called, and a
    throw of [onModeChange] reaches the caller although the setter has
    already run.  A throw of the setter reaches the caller before
    [onModeChange] is called. *)
Theorem mode_switch_keeps_selection_otherwise {Cache Chain : Type}
    (PROJECT_CHAIN : Chain)
    (chain_eq_dec : forall a b : Chain, {a = b} + {a <> b})
    (setSelectedChain : Chain -> Js Cache unit)
    (props : ChatControlsProps Cache Chain)
    (chainType : Chain) (w w1 : World Cache) (r1 : Completion unit) :
  setSelectedChain chainType w = (r1, w1) ->
  (forall e,
     r1 = Abrupt e ->
     handleModeChange PROJECT_CHAIN chain_eq_dec setSelectedChain props chainType w
     = (Abrupt e, w1)) /\
  (forall r2 w2,
     r1 = Normal tt ->
     onModeChange props chainType w1 = (r2, w2) ->
     chainType = PROJECT_CHAIN \/ (exists e, r2 = Abrupt e) ->
     handleModeChange PROJECT_CHAIN chain_eq_dec setSelectedChain props chainType w
     = (r2, w2)).
Proof.
  intros Hset. split.
  - intros e ->.
    cbv beta iota delta [handleModeChange bind Monad_Js Js_bind].
    rewrite Hset. reflexivity.
  - intros r2 w2 -> Hmode Hcase.
    rewrite (handleModeChange_after_handlers PROJECT_CHAIN chain_eq_dec
               setSelectedChain props chainType w w1 w2 r2 Hset Hmode).
    destruct Hcase as [-> | (e & ->)]; [| reflexivity].
    rewrite strictNotEqual_same. destruct r2 as [[] | e]; reflexivity.
Qed.

Lemma mode_switch_keeps_selection_otherwise_witness :
  handleModeChange DemoMode.PROJECT_CHAIN string_dec DemoMode.setSelectedChain
    DemoMode.throwingProps "vault_qa" Demo.idle
  = (Abrupt (NewError "mode change refused"), Demo.idle).
Proof.
  refine (proj2 (mode_switch_keeps_selection_otherwise
                   DemoMode.PROJECT_CHAIN string_dec DemoMode.setSelectedChain
                   DemoMode.throwingProps "vault_qa" Demo.idle Demo.idle
                   (Normal tt) eq_refl)
            (Abrupt (NewError "mode change refused")) Demo.idle
            eq_refl eq_refl _).
  right. exists (NewError "mode change refused"). reflexivity.
Defined.
